(** * Subscription billing: the Stripe service and its webhook dispatcher

    A shallow embedding of
      - [worker/services/stripe/StripeService.ts]   (class [StripeService]),
      - [worker/api/controllers/subscription/controller.ts]
        ([SubscriptionController.getSubscriptionStatus] and
        [handleStripeWebhook]),
      - the tables of [migrations/0004_safe_gambit.sql],
    followed by the properties of the billing specification.

    Conventions.  An [async] method is a computation [M] over the D1
    database that also yields the entries it logs; [await] is sequencing.
    A JavaScript exception is the [Throw] outcome; [try]/[catch] is a case
    analysis on the outcome.
    The provider SDK is not part of the repository: its operations are the
    fields of [Stripe], supplied by the caller.  [new Date()] reads the
    instant [now] at which the handler runs. *)

From Stdlib Require Import ZArith String List.
From stdpp Require Import base option list strings gmap.

Local Open Scope Z_scope.
Local Open Scope string_scope.

(** ** JavaScript values *)

(** A thrown value: the constructor's name and its message. *)
Record Exn := JsError { exn_name : string; exn_message : string }.

Inductive Result (A : Type) : Type :=
| Ok (value : A)
| Throw (error : Exn).
Arguments Ok {A} value.
Arguments Throw {A} error.

(** [Date]: the time value in milliseconds since the epoch.  Provider
    timestamps are integral Unix seconds well inside the range of
    ECMAScript time values, so [new Date(s * 1000)] is exact. *)
Record Date := new_Date { getTime : Z }.

(** [new Date(seconds * 1000)] *)
Definition Date_of_unix (seconds : Z) : Date := new_Date (seconds * 1000).

(** Truthiness of a possibly absent string: [undefined], [null] and the
    empty string are falsy. *)
Definition truthy (v : option string) : bool :=
  match v with
  | Some s => negb (String.eqb s "")
  | None => false
  end.

(** [a || b] on possibly absent strings. *)
Definition js_or (a b : option string) : option string :=
  if truthy a then a else b.

(** [a || d] where [d] is a string literal or template. *)
Definition js_or_else (a : option string) (d : string) : string :=
  match a with
  | Some s => if String.eqb s "" then d else s
  | None => d
  end.

(** [t ? new Date(t * 1000) : null]: [null] and [0] are falsy. *)
Definition Date_of_optional_unix (t : option Z) : option Date :=
  match t with
  | Some n => if Z.eqb n 0 then None else Some (Date_of_unix n)
  | None => None
  end.

(** [t! * 1000]: the non-null assertion is erased at run time, and
    [null * 1000] is [0]. *)
Definition unix_or_null_ms (t : option Z) : Z :=
  match t with
  | Some n => n * 1000
  | None => 0
  end.

(** ** Provider objects (the fields of the SDK's types that the code reads) *)

Module StripeObjects.

Module Price.
Record t := mk { id : string; product : string }.
End Price.

Module SubscriptionItem.
Record t := mk { price : Price.t }.
End SubscriptionItem.

Module Subscription.
Record t := mk {
  id : string;
  metadata : gmap string string;
  customer : string;
  items_data : list SubscriptionItem.t;
  status : string;
  cancel_at_period_end : bool;
  current_period_start : Z;
  current_period_end : Z;
  trial_start : option Z;
  trial_end : option Z;
  canceled_at : option Z
}.
End Subscription.

Module SubscriptionDetails.
Record t := mk { metadata : option (gmap string string) }.
End SubscriptionDetails.

Module Invoice.
Record t := mk {
  id : string;
  metadata : option (gmap string string);
  subscription_details : option SubscriptionDetails.t;
  payment_intent : option string;
  subscription : option string;
  customer : option string;
  amount_paid : Z;
  currency : string;
  description : option string;
  hosted_invoice_url : option string;
  status_transitions_paid_at : option Z
}.
End Invoice.

End StripeObjects.
Import StripeObjects.

(** The event types the dispatcher's [switch] names. *)
Definition dispatched_types : list string :=
  [ "customer.subscription.created"; "customer.subscription.updated";
    "customer.subscription.deleted"; "invoice.payment_succeeded";
    "invoice.payment_failed"; "customer.subscription.trial_will_end" ].

Definition is_dispatched (type : string) : bool :=
  existsb (String.eqb type) dispatched_types.

(** [Stripe.Event] is a union discriminated by [type]: the type fixes the
    shape of [data.object].  Every other member of the union is an
    [other_event]; it carries its type name, which is none of the six
    above, and the id of its object. *)
Inductive Event : Type :=
| customer_subscription_created (id : string) (object : Subscription.t)
| customer_subscription_updated (id : string) (object : Subscription.t)
| customer_subscription_deleted (id : string) (object : Subscription.t)
| invoice_payment_succeeded (id : string) (object : Invoice.t)
| invoice_payment_failed (id : string) (object : Invoice.t)
| customer_subscription_trial_will_end (id : string) (object : Subscription.t)
| other_event (id : string) (type : string)
    (not_dispatched : is_dispatched type = false) (object_id : string).

Definition event_id (e : Event) : string :=
  match e with
  | customer_subscription_created i _ | customer_subscription_updated i _
  | customer_subscription_deleted i _ | invoice_payment_succeeded i _
  | invoice_payment_failed i _ | customer_subscription_trial_will_end i _
  | other_event i _ _ _ => i
  end.

Definition event_type (e : Event) : string :=
  match e with
  | customer_subscription_created _ _ => "customer.subscription.created"
  | customer_subscription_updated _ _ => "customer.subscription.updated"
  | customer_subscription_deleted _ _ => "customer.subscription.deleted"
  | invoice_payment_succeeded _ _ => "invoice.payment_succeeded"
  | invoice_payment_failed _ _ => "invoice.payment_failed"
  | customer_subscription_trial_will_end _ _ =>
      "customer.subscription.trial_will_end"
  | other_event _ t _ _ => t
  end.

(** [event.data.object.id] *)
Definition event_object_id (e : Event) : string :=
  match e with
  | customer_subscription_created _ s | customer_subscription_updated _ s
  | customer_subscription_deleted _ s
  | customer_subscription_trial_will_end _ s => Subscription.id s
  | invoice_payment_succeeded _ i | invoice_payment_failed _ i => Invoice.id i
  | other_event _ _ _ o => o
  end.

(** The SDK client ([new Stripe(secretKey, ...)]): the two operations the
    modelled methods call. *)
Record Stripe := {
  webhooks_constructEvent : string -> string -> string -> Result Event;
  subscriptions_update : string -> bool -> Result unit
}.

(** ** The relational store (migrations/0004_safe_gambit.sql)

    Rows carry the values the ORM hands over; a nullable column is an
    [option].  The column encoding of dates belongs to the schema module,
    which the handlers never look into. *)

Module subscriptions.
Record row := mk {
  id : string;
  userId : string;
  stripeCustomerId : string;
  stripePriceId : string;
  stripeProductId : string;
  status : string;
  cancelAtPeriodEnd : option bool;
  currentPeriodStart : Date;
  currentPeriodEnd : Date;
  canceledAt : option Date;
  trialStart : option Date;
  trialEnd : option Date;
  createdAt : option Date;
  updatedAt : option Date
}.
End subscriptions.

Module payments.
Record row := mk {
  id : string;
  userId : string;
  subscriptionId : option string;
  stripeInvoiceId : option string;
  stripeCustomerId : option string;
  amount : Z;
  currency : string;
  status : string;
  description : option string;
  receiptUrl : option string;
  createdAt : option Date;
  paidAt : option Date
}.
End payments.

(** The database: the ids of the [users] table (the target of the foreign
    keys) and the two tables the service writes, in insertion order. *)
Record DB := {
  users : list string;
  subscriptions_ : list subscriptions.row;
  payments_ : list payments.row
}.

Definition has_key (k : string) (keys : list string) : bool :=
  existsb (String.eqb k) keys.

Definition SQLITE_CONSTRAINT (what : string) : Exn :=
  JsError "Error" ("D1_ERROR: " ++ what ++ " constraint failed").

(** [INSERT INTO subscriptions]: the primary key must be fresh and
    [user_id] must reference a user. *)
Definition insert_subscription (r : subscriptions.row) (d : DB) : Result DB :=
  if has_key (subscriptions.id r) (map subscriptions.id (subscriptions_ d))
  then Throw (SQLITE_CONSTRAINT "UNIQUE")
  else if negb (has_key (subscriptions.userId r) (users d))
  then Throw (SQLITE_CONSTRAINT "FOREIGN KEY")
  else Ok {| users := users d;
             subscriptions_ := subscriptions_ d ++ [r];
             payments_ := payments_ d |}.

(** [INSERT INTO payments]: [stripe_customer_id] is NOT NULL, the primary
    key must be fresh, [user_id] must reference a user and a non-null
    [subscription_id] a subscription. *)
Definition insert_payment (r : payments.row) (d : DB) : Result DB :=
  if match payments.stripeCustomerId r with Some _ => false | None => true end
  then Throw (SQLITE_CONSTRAINT "NOT NULL")
  else if has_key (payments.id r) (map payments.id (payments_ d))
  then Throw (SQLITE_CONSTRAINT "UNIQUE")
  else if negb (has_key (payments.userId r) (users d))
  then Throw (SQLITE_CONSTRAINT "FOREIGN KEY")
  else if match payments.subscriptionId r with
          | Some s => negb (has_key s (map subscriptions.id (subscriptions_ d)))
          | None => false
          end
  then Throw (SQLITE_CONSTRAINT "FOREIGN KEY")
  else Ok {| users := users d;
             subscriptions_ := subscriptions_ d;
             payments_ := payments_ d ++ [r] |}.

(** [UPDATE subscriptions SET ... WHERE id = ?] *)
Definition update_subscriptions_where_id
    (key : string) (set : subscriptions.row -> subscriptions.row) (d : DB) : DB :=
  {| users := users d;
     subscriptions_ :=
       map (fun r => if String.eqb (subscriptions.id r) key then set r else r)
           (subscriptions_ d);
     payments_ := payments_ d |}.

(** [SELECT * FROM subscriptions WHERE user_id = ? AND status = ? LIMIT 1] *)
Definition select_subscription_by_user_and_status
    (user status : string) (d : DB) : option subscriptions.row :=
  find (fun r => String.eqb (subscriptions.userId r) user
                 && String.eqb (subscriptions.status r) status)
       (subscriptions_ d).

(** ** Computations: database, log and exceptions *)

Module Level.
Inductive t := info | warn | error.
End Level.

(** One call of [logger.<level>(message, data)] or [console.<level>(message)];
    [logger] is the component name, an error in [data] is kept by its
    message. *)
Record LogEntry := {
  logger : string;
  level : Level.t;
  message : string;
  data : list (string * string)
}.

(** What a computation leaves behind: its result, the database it has
    reached (also when it throws) and the entries it has logged. *)
Record Outcome (A : Type) := {
  result : Result A;
  db_after : DB;
  logged : list LogEntry
}.
Arguments result {A} _.
Arguments db_after {A} _.
Arguments logged {A} _.

Definition M (A : Type) : Type := DB -> Outcome A.

Definition ret {A} (a : A) : M A :=
  fun d => {| result := Ok a; db_after := d; logged := [] |}.

Definition throw {A} (e : Exn) : M A :=
  fun d => {| result := Throw e; db_after := d; logged := [] |}.

Definition bind {A B} (m : M A) (k : A -> M B) : M B :=
  fun d =>
    let o := m d in
    match result o with
    | Ok a =>
        let o' := k a (db_after o) in
        {| result := result o'; db_after := db_after o';
           logged := logged o ++ logged o' |}
    | Throw e =>
        {| result := Throw e; db_after := db_after o; logged := logged o |}
    end.

(** [try { m } catch (e) { h e }] *)
Definition try_catch {A} (m : M A) (h : Exn -> M A) : M A :=
  fun d =>
    let o := m d in
    match result o with
    | Ok a => o
    | Throw e =>
        let o' := h e (db_after o) in
        {| result := result o'; db_after := db_after o';
           logged := logged o ++ logged o' |}
    end.

Declare Scope M_scope.
Delimit Scope M_scope with M.
Notation "'await' x ':=' m 'in' k" := (bind m (fun x => k))
  (at level 10, x name, m at level 100, k at level 200) : M_scope.
Notation "m '>>' k" := (bind m (fun _ => k))
  (at level 90, right associativity) : M_scope.
Local Open Scope M_scope.

Definition write_log (l : LogEntry) : M unit :=
  fun d => {| result := Ok tt; db_after := d; logged := [l] |}.

(** A provider call, or any step that fails or yields a value without
    touching the database. *)
Definition lift {A} (r : Result A) : M A :=
  fun d => {| result := r; db_after := d; logged := [] |}.

(** A query. *)
Definition query {A} (q : DB -> A) : M A :=
  fun d => {| result := Ok (q d); db_after := d; logged := [] |}.

(** A statement: it fails and leaves the database as it is, or replaces
    it. *)
Definition execute (stmt : DB -> Result DB) : M unit :=
  fun d =>
    match stmt d with
    | Ok d' => {| result := Ok tt; db_after := d'; logged := [] |}
    | Throw e => {| result := Throw e; db_after := d; logged := [] |}
    end.

(** ** worker/services/stripe/StripeService.ts *)

Module StripeService.
Section StripeService.

(** [this.stripe]; [this.db] is the database the computation runs on. *)
Variable stripe : Stripe.

(** The instant read by [new Date()]. *)
Variable now : Date.

Definition getUserSubscription (userId : string)
  : M (option subscriptions.row) :=
  query (select_subscription_by_user_and_status userId "active").

Definition hasActiveSubscription (userId : string) : M bool :=
  await sub := getUserSubscription userId in
  ret (match sub with Some _ => true | None => false end).

(** [.set({ cancelAtPeriodEnd: flag, updatedAt: new Date() })] *)
Definition set_cancelAtPeriodEnd (flag : bool) (r : subscriptions.row)
  : subscriptions.row :=
  {| subscriptions.id := subscriptions.id r;
     subscriptions.userId := subscriptions.userId r;
     subscriptions.stripeCustomerId := subscriptions.stripeCustomerId r;
     subscriptions.stripePriceId := subscriptions.stripePriceId r;
     subscriptions.stripeProductId := subscriptions.stripeProductId r;
     subscriptions.status := subscriptions.status r;
     subscriptions.cancelAtPeriodEnd := Some flag;
     subscriptions.currentPeriodStart := subscriptions.currentPeriodStart r;
     subscriptions.currentPeriodEnd := subscriptions.currentPeriodEnd r;
     subscriptions.canceledAt := subscriptions.canceledAt r;
     subscriptions.trialStart := subscriptions.trialStart r;
     subscriptions.trialEnd := subscriptions.trialEnd r;
     subscriptions.createdAt := subscriptions.createdAt r;
     subscriptions.updatedAt := Some now |}.

Definition cancelSubscription (subscriptionId : string) : M unit :=
  lift (subscriptions_update stripe subscriptionId true) >>
  execute (fun d =>
    Ok (update_subscriptions_where_id subscriptionId
          (set_cancelAtPeriodEnd true) d)).

Definition reactivateSubscription (subscriptionId : string) : M unit :=
  lift (subscriptions_update stripe subscriptionId false) >>
  execute (fun d =>
    Ok (update_subscriptions_where_id subscriptionId
          (set_cancelAtPeriodEnd false) d)).

(** The [NewSubscription] literal; [canceledAt] is left to its default. *)
Definition newSub (subscription : Subscription.t) (userId : string)
    (item0 : SubscriptionItem.t) : subscriptions.row :=
  {| subscriptions.id := Subscription.id subscription;
     subscriptions.userId := userId;
     subscriptions.stripeCustomerId := Subscription.customer subscription;
     subscriptions.stripePriceId := Price.id (SubscriptionItem.price item0);
     subscriptions.stripeProductId :=
       Price.product (SubscriptionItem.price item0);
     subscriptions.status := Subscription.status subscription;
     subscriptions.cancelAtPeriodEnd :=
       Some (Subscription.cancel_at_period_end subscription);
     subscriptions.currentPeriodStart :=
       Date_of_unix (Subscription.current_period_start subscription);
     subscriptions.currentPeriodEnd :=
       Date_of_unix (Subscription.current_period_end subscription);
     subscriptions.canceledAt := None;
     subscriptions.trialStart :=
       Date_of_optional_unix (Subscription.trial_start subscription);
     subscriptions.trialEnd :=
       Date_of_optional_unix (Subscription.trial_end subscription);
     subscriptions.createdAt := Some now;
     subscriptions.updatedAt := Some now |}.

Definition handleSubscriptionCreated (subscription : Subscription.t)
  : M unit :=
  let userId := Subscription.metadata subscription !! "userId" in
  if negb (truthy userId)
  then throw (JsError "Error" "No userId in subscription metadata")
  else
    match Subscription.items_data subscription with
    | item0 :: _ =>
        execute
          (insert_subscription (newSub subscription (default "" userId) item0))
    | [] =>
        (* items.data[0] is undefined *)
        throw (JsError "TypeError"
                 "Cannot read properties of undefined (reading 'price')")
    end.

(** The [.set({...})] of [handleSubscriptionUpdated]. *)
Definition set_updated (subscription : Subscription.t)
    (r : subscriptions.row) : subscriptions.row :=
  {| subscriptions.id := subscriptions.id r;
     subscriptions.userId := subscriptions.userId r;
     subscriptions.stripeCustomerId := subscriptions.stripeCustomerId r;
     subscriptions.stripePriceId := subscriptions.stripePriceId r;
     subscriptions.stripeProductId := subscriptions.stripeProductId r;
     subscriptions.status := Subscription.status subscription;
     subscriptions.cancelAtPeriodEnd :=
       Some (Subscription.cancel_at_period_end subscription);
     subscriptions.currentPeriodStart :=
       Date_of_unix (Subscription.current_period_start subscription);
     subscriptions.currentPeriodEnd :=
       Date_of_unix (Subscription.current_period_end subscription);
     subscriptions.canceledAt :=
       Date_of_optional_unix (Subscription.canceled_at subscription);
     subscriptions.trialStart := subscriptions.trialStart r;
     subscriptions.trialEnd := subscriptions.trialEnd r;
     subscriptions.createdAt := subscriptions.createdAt r;
     subscriptions.updatedAt := Some now |}.

Definition handleSubscriptionUpdated (subscription : Subscription.t)
  : M unit :=
  execute (fun d =>
    Ok (update_subscriptions_where_id (Subscription.id subscription)
          (set_updated subscription) d)).

(** The [.set({...})] of [handleSubscriptionDeleted]. *)
Definition set_deleted (r : subscriptions.row) : subscriptions.row :=
  {| subscriptions.id := subscriptions.id r;
     subscriptions.userId := subscriptions.userId r;
     subscriptions.stripeCustomerId := subscriptions.stripeCustomerId r;
     subscriptions.stripePriceId := subscriptions.stripePriceId r;
     subscriptions.stripeProductId := subscriptions.stripeProductId r;
     subscriptions.status := "canceled";
     subscriptions.cancelAtPeriodEnd := subscriptions.cancelAtPeriodEnd r;
     subscriptions.currentPeriodStart := subscriptions.currentPeriodStart r;
     subscriptions.currentPeriodEnd := subscriptions.currentPeriodEnd r;
     subscriptions.canceledAt := Some now;
     subscriptions.trialStart := subscriptions.trialStart r;
     subscriptions.trialEnd := subscriptions.trialEnd r;
     subscriptions.createdAt := subscriptions.createdAt r;
     subscriptions.updatedAt := Some now |}.

Definition handleSubscriptionDeleted (subscription : Subscription.t)
  : M unit :=
  execute (fun d =>
    Ok (update_subscriptions_where_id (Subscription.id subscription)
          set_deleted d)).

(** [metadata?.userId] *)
Definition optional_userId (metadata : option (gmap string string))
  : option string :=
  match metadata with
  | Some metadata => metadata !! "userId"
  | None => None
  end.

(** [subscription_details?.metadata] *)
Definition optional_metadata (details : option SubscriptionDetails.t)
  : option (gmap string string) :=
  match details with
  | Some details => SubscriptionDetails.metadata details
  | None => None
  end.

(** [invoice.metadata?.userId || invoice.subscription_details?.metadata?.userId] *)
Definition invoice_userId (invoice : Invoice.t) : option string :=
  js_or (optional_userId (Invoice.metadata invoice))
        (optional_userId
           (optional_metadata (Invoice.subscription_details invoice))).

(** The [NewPayment] literal. *)
Definition newPayment (invoice : Invoice.t) (userId : string)
  : payments.row :=
  {| payments.id :=
       js_or_else (Invoice.payment_intent invoice)
                  ("pi_" ++ Invoice.id invoice);
     payments.userId := userId;
     payments.subscriptionId := js_or (Invoice.subscription invoice) None;
     payments.stripeInvoiceId := Some (Invoice.id invoice);
     payments.stripeCustomerId := Invoice.customer invoice;
     payments.amount := Invoice.amount_paid invoice;
     payments.currency := Invoice.currency invoice;
     payments.status := "succeeded";
     payments.description :=
       Some (js_or_else (Invoice.description invoice) "Subscription payment");
     payments.receiptUrl := Invoice.hosted_invoice_url invoice;
     payments.createdAt := Some now;
     payments.paidAt :=
       Some (new_Date
               (unix_or_null_ms (Invoice.status_transitions_paid_at invoice)))
  |}.

Definition handleInvoicePaymentSucceeded (invoice : Invoice.t) : M unit :=
  let userId := invoice_userId invoice in
  if negb (truthy userId)
  then
    write_log {| logger := "console"; level := Level.warn;
                 message := "No userId in invoice metadata"; data := [] |} >>
    ret tt
  else execute (insert_payment (newPayment invoice (default "" userId))).

Definition verifyWebhookSignature (payload signature webhookSecret : string)
  : Result Event :=
  webhooks_constructEvent stripe payload signature webhookSecret.

End StripeService.
End StripeService.

(** ** worker/api/controllers/subscription/controller.ts *)

#[local] Unset Elimination Schemes.
Inductive Json :=
| JNull
| JBool (b : bool)
| JString (s : string)
| JDate (d : Date)
| JObject (fields : list (string * Json)).
#[local] Set Elimination Schemes.

Inductive Body :=
| TextBody (text : string)
| JsonBody (value : Json).

Record Response := {
  status : Z;
  headers : list (string * string);
  body : Body
}.

(** [new Response(text, { status })] *)
Definition text_response (text : string) (code : Z) : Response :=
  {| status := code; headers := []; body := TextBody text |}.

(** [new Response(JSON.stringify(value), { status, headers })] with the
    JSON content type. *)
Definition json_response (value : Json) (code : Z) : Response :=
  {| status := code;
     headers := [("Content-Type", "application/json")];
     body := JsonBody value |}.

(** The incoming request: the outcome of [request.text()] and the value
    of [request.headers.get('stripe-signature')]. *)
Record Request := {
  text : Result string;
  stripe_signature : option string
}.

(** A request as the platform delivers it: the body can be read. *)
Definition delivered (body : string) (signature : option string) : Request :=
  {| text := Ok body; stripe_signature := signature |}.

Record Env := {
  STRIPE_SECRET_KEY : string;
  STRIPE_WEBHOOK_SECRET : string
}.

Record User := { user_id : string; user_email : string }.

Record RouteContext := { user : option User }.

(** [BaseController] (worker/api/controllers/baseController) is not among
    the sources; the controller reaches its static helpers through this
    interface. *)
Record BaseController := {
  createErrorResponse : string -> Z -> Response;
  createSuccessResponse : Json -> Response;
  handleError : Exn -> string -> Response
}.

Module SubscriptionController.
Section SubscriptionController.

(** The class extends [BaseController]. *)
Variable base : BaseController.

(** [new Stripe(secretKey, ...)] inside [new StripeService(...)] *)
Variable new_Stripe : string -> Stripe.

(** The object handed to [createSuccessResponse]. *)
Definition status_payload (subscription : option subscriptions.row) : Json :=
  JObject
    [ ("hasActiveSubscription",
        JBool (match subscription with Some _ => true | None => false end));
      ("subscription",
        match subscription with
        | Some sub =>
            JObject
              [ ("id", JString (subscriptions.id sub));
                ("status", JString (subscriptions.status sub));
                ("currentPeriodEnd",
                  JDate (subscriptions.currentPeriodEnd sub));
                ("cancelAtPeriodEnd",
                  match subscriptions.cancelAtPeriodEnd sub with
                  | Some flag => JBool flag
                  | None => JNull
                  end) ]
        | None => JNull
        end) ].

(** GET /api/subscription/status *)
Definition getSubscriptionStatus (env : Env) (routeContext : RouteContext)
  : M Response :=
  try_catch
    (match user routeContext with
     | None => ret (createErrorResponse base "Unauthorized" 401)
     | Some u =>
         let stripe := new_Stripe (STRIPE_SECRET_KEY env) in
         await subscription :=
           StripeService.getUserSubscription (user_id u) in
         ret (createSuccessResponse base (status_payload subscription))
     end)
    (fun error =>
       ret (handleError base error "get subscription status")).

End SubscriptionController.
End SubscriptionController.

(** ** The webhook controller (second module of the controller file) *)

Section StripeWebhook.

Variable new_Stripe : string -> Stripe.
Variable now : Date.

(** [const logger = createLogger('StripeWebhook')] *)
Definition logger_ (lvl : Level.t) (msg : string)
    (fields : list (string * string)) : M unit :=
  write_log {| logger := "StripeWebhook"; level := lvl;
               message := msg; data := fields |}.

(** The [switch (event.type)] of the handler. *)
Definition dispatch (event : Event) : M unit :=
  match event with
  | customer_subscription_created _ object =>
      StripeService.handleSubscriptionCreated now object >>
      logger_ Level.info "Subscription created"
        [("subscriptionId", Subscription.id object)]
  | customer_subscription_updated _ object =>
      StripeService.handleSubscriptionUpdated now object >>
      logger_ Level.info "Subscription updated"
        [("subscriptionId", Subscription.id object)]
  | customer_subscription_deleted _ object =>
      StripeService.handleSubscriptionDeleted now object >>
      logger_ Level.info "Subscription deleted"
        [("subscriptionId", Subscription.id object)]
  | invoice_payment_succeeded _ object =>
      StripeService.handleInvoicePaymentSucceeded now object >>
      logger_ Level.info "Invoice payment succeeded"
        [("invoiceId", Invoice.id object)]
  | invoice_payment_failed _ object =>
      logger_ Level.warn "Invoice payment failed"
        [("invoiceId", Invoice.id object)]
  | customer_subscription_trial_will_end _ object =>
      logger_ Level.info "Trial will end soon"
        [("subscriptionId", Subscription.id object)]
  | other_event _ type _ _ =>
      logger_ Level.info "Unhandled webhook event type" [("type", type)]
  end.

(** [{ received: true }] *)
Definition received : Json := JObject [("received", JBool true)].

(** [{ received: true, error: 'Processing failed' }] *)
Definition received_with_error : Json :=
  JObject [("received", JBool true); ("error", JString "Processing failed")].

(** POST /api/webhooks/stripe *)
Definition handleStripeWebhook (request : Request) (env : Env)
  : M Response :=
  try_catch
    (await body := lift (text request) in
     let signature := stripe_signature request in
     if negb (truthy signature)
     then
       logger_ Level.error "Missing stripe-signature header" [] >>
       ret (text_response "Missing signature" 400)
     else
       let stripe := new_Stripe (STRIPE_SECRET_KEY env) in
       match StripeService.verifyWebhookSignature stripe body
               (default "" signature) (STRIPE_WEBHOOK_SECRET env) with
       | Throw err =>
           logger_ Level.error "Webhook signature verification failed"
             [("error", exn_message err)] >>
           ret (text_response "Invalid signature" 400)
       | Ok event =>
           logger_ Level.info "Processing Stripe webhook event"
             [("type", event_type event); ("id", event_id event)] >>
           try_catch
             (dispatch event >>
              ret (json_response received 200))
             (fun error =>
                logger_ Level.error "Error processing webhook event"
                  [("type", event_type event); ("id", event_id event);
                   ("error", exn_message error)] >>
                ret (json_response received_with_error 200))
       end)
    (fun error =>
       logger_ Level.error "Webhook handler error"
         [("error", exn_message error)] >>
       ret (text_response "Webhook handler error" 500)).

End StripeWebhook.

(** The two log entries that frame the processing of a verified event. *)
Definition processing_entry (event : Event) : LogEntry :=
  {| logger := "StripeWebhook"; level := Level.info;
     message := "Processing Stripe webhook event";
     data := [("type", event_type event); ("id", event_id event)] |}.

Definition processing_error_entry (event : Event) (err : Exn) : LogEntry :=
  {| logger := "StripeWebhook"; level := Level.error;
     message := "Error processing webhook event";
     data := [("type", event_type event); ("id", event_id event);
              ("error", exn_message err)] |}.

(** The request under which the provider's signature check yields [event]. *)
Definition verified (new_Stripe : string -> Stripe) (request : Request)
    (env : Env) (event : Event) : Prop :=
  exists body signature,
    text request = Ok body /\
    stripe_signature request = Some signature /\
    signature <> "" /\
    webhooks_constructEvent (new_Stripe (STRIPE_SECRET_KEY env))
      body signature (STRIPE_WEBHOOK_SECRET env) = Ok event.

(** Two rows that differ at most in [cancelAtPeriodEnd] and [updatedAt]. *)
Definition same_but_cancel_flag (r r' : subscriptions.row) : Prop :=
  subscriptions.id r' = subscriptions.id r /\
  subscriptions.userId r' = subscriptions.userId r /\
  subscriptions.stripeCustomerId r' = subscriptions.stripeCustomerId r /\
  subscriptions.stripePriceId r' = subscriptions.stripePriceId r /\
  subscriptions.stripeProductId r' = subscriptions.stripeProductId r /\
  subscriptions.status r' = subscriptions.status r /\
  subscriptions.currentPeriodStart r' = subscriptions.currentPeriodStart r /\
  subscriptions.currentPeriodEnd r' = subscriptions.currentPeriodEnd r /\
  subscriptions.canceledAt r' = subscriptions.canceledAt r /\
  subscriptions.trialStart r' = subscriptions.trialStart r /\
  subscriptions.trialEnd r' = subscriptions.trialEnd r /\
  subscriptions.createdAt r' = subscriptions.createdAt r.

(** [d'] is [d] up to the cancel flag and the update stamp of the
    subscription rows with the given id; the other rows and tables are
    the same. *)
Definition only_cancel_flag_written (subscriptionId : string) (d d' : DB)
  : Prop :=
  users d' = users d /\
  payments_ d' = payments_ d /\
  Forall2 (fun r r' =>
             same_but_cancel_flag r r' /\
             (subscriptions.id r <> subscriptionId -> r' = r))
          (subscriptions_ d) (subscriptions_ d').

(** The same active subscription is found for every user, with its
    status still ['active']. *)
Definition active_subscriptions_kept (d d' : DB) : Prop :=
  forall userId,
    result (StripeService.hasActiveSubscription userId d')
    = result (StripeService.hasActiveSubscription userId d) /\
    forall r,
      result (StripeService.getUserSubscription userId d) = Ok (Some r) ->
      exists r',
        result (StripeService.getUserSubscription userId d') = Ok (Some r') /\
        subscriptions.id r' = subscriptions.id r /\
        subscriptions.status r' = "active".

(** How an optional provider timestamp shows in a date column: [null]
    stays [null], a timestamp (a number of seconds other than 0) gives
    its date. *)
Definition mirrors_timestamp (t : option Z) (column : option Date) : Prop :=
  (t = None -> column = None) /\
  (forall seconds, t = Some seconds -> seconds <> 0 ->
     column = Some (Date_of_unix seconds)).

(** [r'] is [r] after [handleSubscriptionUpdated] has written the event's
    status, cancel flag, period and cancellation date and the update
    stamp; the remaining columns are those of [r]. *)
Definition written_by_update (now : Date) (subscription : Subscription.t)
    (r r' : subscriptions.row) : Prop :=
  subscriptions.status r' = Subscription.status subscription /\
  subscriptions.cancelAtPeriodEnd r'
    = Some (Subscription.cancel_at_period_end subscription) /\
  subscriptions.currentPeriodStart r'
    = Date_of_unix (Subscription.current_period_start subscription) /\
  subscriptions.currentPeriodEnd r'
    = Date_of_unix (Subscription.current_period_end subscription) /\
  mirrors_timestamp (Subscription.canceled_at subscription)
    (subscriptions.canceledAt r') /\
  subscriptions.updatedAt r' = Some now /\
  subscriptions.id r' = subscriptions.id r /\
  subscriptions.userId r' = subscriptions.userId r /\
  subscriptions.stripeCustomerId r' = subscriptions.stripeCustomerId r /\
  subscriptions.stripePriceId r' = subscriptions.stripePriceId r /\
  subscriptions.stripeProductId r' = subscriptions.stripeProductId r /\
  subscriptions.trialStart r' = subscriptions.trialStart r /\
  subscriptions.trialEnd r' = subscriptions.trialEnd r /\
  subscriptions.createdAt r' = subscriptions.createdAt r.

(** Two rows that differ at most in the columns stamped by the clock,
    [canceledAt] and [updatedAt]. *)
Definition same_but_stamps (r r' : subscriptions.row) : Prop :=
  subscriptions.id r' = subscriptions.id r /\
  subscriptions.userId r' = subscriptions.userId r /\
  subscriptions.stripeCustomerId r' = subscriptions.stripeCustomerId r /\
  subscriptions.stripePriceId r' = subscriptions.stripePriceId r /\
  subscriptions.stripeProductId r' = subscriptions.stripeProductId r /\
  subscriptions.status r' = subscriptions.status r /\
  subscriptions.cancelAtPeriodEnd r' = subscriptions.cancelAtPeriodEnd r /\
  subscriptions.currentPeriodStart r' = subscriptions.currentPeriodStart r /\
  subscriptions.currentPeriodEnd r' = subscriptions.currentPeriodEnd r /\
  subscriptions.trialStart r' = subscriptions.trialStart r /\
  subscriptions.trialEnd r' = subscriptions.trialEnd r /\
  subscriptions.createdAt r' = subscriptions.createdAt r.

Definition same_records_but_stamps (d d' : DB) : Prop :=
  users d' = users d /\
  payments_ d' = payments_ d /\
  Forall2 same_but_stamps (subscriptions_ d) (subscriptions_ d').

(** Two rows that differ at most in [updatedAt]. *)
Definition same_but_updatedAt (r r' : subscriptions.row) : Prop :=
  subscriptions.id r' = subscriptions.id r /\
  subscriptions.userId r' = subscriptions.userId r /\
  subscriptions.stripeCustomerId r' = subscriptions.stripeCustomerId r /\
  subscriptions.stripePriceId r' = subscriptions.stripePriceId r /\
  subscriptions.stripeProductId r' = subscriptions.stripeProductId r /\
  subscriptions.status r' = subscriptions.status r /\
  subscriptions.cancelAtPeriodEnd r' = subscriptions.cancelAtPeriodEnd r /\
  subscriptions.currentPeriodStart r' = subscriptions.currentPeriodStart r /\
  subscriptions.currentPeriodEnd r' = subscriptions.currentPeriodEnd r /\
  subscriptions.canceledAt r' = subscriptions.canceledAt r /\
  subscriptions.trialStart r' = subscriptions.trialStart r /\
  subscriptions.trialEnd r' = subscriptions.trialEnd r /\
  subscriptions.createdAt r' = subscriptions.createdAt r.

Definition same_records_but_updatedAt (d d' : DB) : Prop :=
  users d' = users d /\
  payments_ d' = payments_ d /\
  Forall2 same_but_updatedAt (subscriptions_ d) (subscriptions_ d').

(** ** Sample data *)

Module Sample.

Definition db0 : DB :=
  {| users := ["user_1"]; subscriptions_ := []; payments_ := [] |}.

Definition subscription : Subscription.t :=
  Subscription.mk "sub_1" {[ "userId" := "user_1" ]} "cus_1"
    [SubscriptionItem.mk (Price.mk "price_1" "prod_1")]
    "active" false 1700000000 1702592000 (Some 1699000000) None None.

Definition anonymous_subscription : Subscription.t :=
  Subscription.mk "sub_2" ∅ "cus_2"
    [SubscriptionItem.mk (Price.mk "price_1" "prod_1")]
    "active" false 1700000000 1702592000 None None None.

(** The same subscription after a change of plan. *)
Definition upgraded_subscription : Subscription.t :=
  Subscription.mk "sub_1" {[ "userId" := "user_1" ]} "cus_1"
    [SubscriptionItem.mk (Price.mk "price_2" "prod_2")]
    "active" false 1700000000 1702592000 (Some 1699000000) None None.

Definition row : subscriptions.row :=
  subscriptions.mk "sub_1" "user_1" "cus_1" "price_1" "prod_1" "active"
    (Some false) (Date_of_unix 1700000000) (Date_of_unix 1702592000)
    None (Some (Date_of_unix 1699000000)) None
    (Some (new_Date 1700000000123)) (Some (new_Date 1700000000123)).

Definition db1 : DB :=
  {| users := ["user_1"]; subscriptions_ := [row]; payments_ := [] |}.

Definition invoice : Invoice.t :=
  Invoice.mk "in_1" (Some {[ "userId" := "user_1" ]}) None
    (Some "pi_1") (Some "sub_1") (Some "cus_1") 4900 "usd" None
    (Some "https://invoice.stripe.com/i/in_1") (Some 1700000100).

(** An invoice settled without a payment intent (nothing to charge). *)
Definition invoice_without_intent : Invoice.t :=
  Invoice.mk "in_2" (Some {[ "userId" := "user_1" ]}) None
    None (Some "sub_1") (Some "cus_1") 0 "usd" None
    (Some "https://invoice.stripe.com/i/in_2") (Some 1700000200).

Definition anonymous_invoice : Invoice.t :=
  Invoice.mk "in_3" None (Some (SubscriptionDetails.mk (Some ∅)))
    (Some "pi_3") (Some "sub_1") (Some "cus_1") 4900 "usd" None None
    (Some 1700000300).

(** A provider whose signature check accepts the signature ["t=1,v1=ok"]
    and then yields [event]. *)
Definition provider (event : Event) (secretKey : string) : Stripe :=
  {| webhooks_constructEvent := fun payload signature webhookSecret =>
       if String.eqb signature "t=1,v1=ok" then Ok event
       else Throw (JsError "StripeSignatureVerificationError"
                     "No signatures found matching the expected signature");
     subscriptions_update := fun _ _ => Ok tt |}.

Definition signed_request : Request :=
  delivered "payload" (Some "t=1,v1=ok").

Definition unsigned_request : Request := delivered "payload" None.

Definition env : Env :=
  {| STRIPE_SECRET_KEY := "sk_test"; STRIPE_WEBHOOK_SECRET := "whsec_test" |}.

(** A base controller that answers in JSON with the given status. *)
Definition base : BaseController :=
  {| createErrorResponse := fun message statusCode =>
       json_response (JObject [("error", JString message)]) statusCode;
     createSuccessResponse := fun data => json_response data 200;
     handleError := fun error action =>
       json_response (JObject [("error", JString (exn_message error))]) 500 |}.

Definition charge_succeeded : Event :=
  other_event "evt_9" "charge.succeeded" eq_refl "ch_1".

End Sample.

(** ** The rest of the provider's interface

    The objects and operations behind [getOrCreateCustomer],
    [createCheckoutSession], [createBillingPortalSession], [getPrices] and
    [getProducts]; as above, only the fields the code reads or writes. *)

Module CustomerCreateParams.
Record t := mk {
  email : string;
  name : option string;
  metadata : gmap string string
}.
End CustomerCreateParams.

Module Customer.
Record t := mk { id : string }.
End Customer.

Module LineItem.
Record t := mk { price : string; quantity : Z }.
End LineItem.

Module SessionCreateParams.
Record t := mk {
  customer : string;
  mode : string;
  payment_method_types : list string;
  line_items : list LineItem.t;
  success_url : string;
  cancel_url : string;
  metadata : gmap string string
}.
End SessionCreateParams.

Module CheckoutSession.
Record t := mk { id : string; url : option string }.
End CheckoutSession.

Module PortalSessionCreateParams.
Record t := mk { customer : string; return_url : string }.
End PortalSessionCreateParams.

Module PortalSession.
Record t := mk { url : string }.
End PortalSession.

Module Product.
Record t := mk { id : string; name : string; active : bool }.
End Product.

(** [price.product]: an id, or the product itself when it was expanded. *)
Inductive ProductRef :=
| product_id (id : string)
| product_object (product : Product.t).

Module Recurring.
Record t := mk { interval : string; interval_count : Z }.
End Recurring.

Module ListedPrice.
Record t := mk {
  id : string;
  product : ProductRef;
  unit_amount : option Z;
  currency : string;
  recurring : option Recurring.t
}.
End ListedPrice.

Module PriceListParams.
Record t := mk {
  active : bool;
  expand : list string;
  product : option string
}.
End PriceListParams.

Module ProductListParams.
Record t := mk { active : bool }.
End ProductListParams.

(** The SDK client with all the operations the service calls; [core]
    holds the two modelled first.  A record holds what the provider
    answers at the time of one request: the provider keeps state of its
    own (every customer it creates gets a new id), so a later request is
    run against another record, whose answers need not be the same. *)
Record StripeApi := {
  core : Stripe;
  customers_create : CustomerCreateParams.t -> Result Customer.t;
  checkout_sessions_create : SessionCreateParams.t -> Result CheckoutSession.t;
  billingPortal_sessions_create :
    PortalSessionCreateParams.t -> Result PortalSession.t;
  prices_list : PriceListParams.t -> Result (list ListedPrice.t);
  products_list : ProductListParams.t -> Result (list Product.t)
}.


(** ** StripeService.ts: customers, sessions and the catalogue *)

Module StripeServiceSessions.
Section StripeServiceSessions.

(** [this.stripe] *)
Variable stripe : StripeApi.




Definition createBillingPortalSession (customerId returnUrl : string)
  : M PortalSession.t :=
  await session :=
    lift (billingPortal_sessions_create stripe
            {| PortalSessionCreateParams.customer := customerId;
               PortalSessionCreateParams.return_url := returnUrl |}) in
  ret session.

(** [getPrices(productId?)]: the filter is set only for a truthy id. *)
Definition getPrices (productId : option string) : M (list ListedPrice.t) :=
  let params :=
    {| PriceListParams.active := true;
       PriceListParams.expand := ["data.product"];
       PriceListParams.product :=
         if truthy productId then productId else None |} in
  await prices := lift (prices_list stripe params) in
  ret prices.

Definition getProducts : M (list Product.t) :=
  await products :=
    lift (products_list stripe {| ProductListParams.active := true |}) in
  ret products.

End StripeServiceSessions.
End StripeServiceSessions.

(** ** controller.ts: the portal, cancel and reactivate endpoints *)

(** [new URL(request.url)]: the two components the controller reads. *)
Module URL.
Record t := mk { protocol : string; host : string }.
End URL.

Module SubscriptionEndpoints.
Section SubscriptionEndpoints.

Variable base : BaseController.

(** [new Stripe(secretKey, ...)] inside [new StripeService(...)] *)
Variable new_Stripe : string -> StripeApi.

Variable now : Date.

(** POST /api/subscription/create-portal-session *)
Definition createPortalSession (url : URL.t) (env : Env)
    (routeContext : RouteContext) : M Response :=
  try_catch
    (match user routeContext with
     | None => ret (createErrorResponse base "Unauthorized" 401)
     | Some u =>
         let stripe := new_Stripe (STRIPE_SECRET_KEY env) in
         await subscription :=
           StripeService.getUserSubscription (user_id u) in
         match subscription with
         | None =>
             ret (createErrorResponse base "No active subscription found" 404)
         | Some sub =>
             let returnUrl := URL.protocol url ++ "//" ++ URL.host url ++ "/billing" in
             await session :=
               StripeServiceSessions.createBillingPortalSession stripe
                 (subscriptions.stripeCustomerId sub) returnUrl in
             ret (createSuccessResponse base
                    (JObject [("url", JString (PortalSession.url session))]))
         end
     end)
    (fun error => ret (handleError base error "create portal session")).

(** POST /api/subscription/cancel *)
Definition cancelSubscription (env : Env) (routeContext : RouteContext)
  : M Response :=
  try_catch
    (match user routeContext with
     | None => ret (createErrorResponse base "Unauthorized" 401)
     | Some u =>
         let stripe := new_Stripe (STRIPE_SECRET_KEY env) in
         await subscription :=
           StripeService.getUserSubscription (user_id u) in
         match subscription with
         | None =>
             ret (createErrorResponse base "No active subscription found" 404)
         | Some sub =>
             StripeService.cancelSubscription (core stripe) now
               (subscriptions.id sub) >>
             ret (createSuccessResponse base
                    (JObject
                       [("message",
                         JString "Subscription will be canceled at the end of the billing period")]))
         end
     end)
    (fun error => ret (handleError base error "cancel subscription")).

(** POST /api/subscription/reactivate *)
Definition reactivateSubscription (env : Env) (routeContext : RouteContext)
  : M Response :=
  try_catch
    (match user routeContext with
     | None => ret (createErrorResponse base "Unauthorized" 401)
     | Some u =>
         let stripe := new_Stripe (STRIPE_SECRET_KEY env) in
         await subscription :=
           StripeService.getUserSubscription (user_id u) in
         match subscription with
         | None =>
             ret (createErrorResponse base "No active subscription found" 404)
         | Some sub =>
             StripeService.reactivateSubscription (core stripe) now
               (subscriptions.id sub) >>
             ret (createSuccessResponse base
                    (JObject
                       [("message",
                         JString "Subscription reactivated successfully")]))
         end
     end)
    (fun error => ret (handleError base error "reactivate subscription")).

End SubscriptionEndpoints.
End SubscriptionEndpoints.

(** ** The constraints of the migration, as a property of a database

    Primary keys are unique, [user_id] references a user, a payment has a
    customer id, and a non-null [subscription_id] references a
    subscription. *)
Definition db_wf (d : DB) : Prop :=
  NoDup (map subscriptions.id (subscriptions_ d)) /\
  NoDup (map payments.id (payments_ d)) /\
  (forall r, In r (subscriptions_ d) -> In (subscriptions.userId r) (users d)) /\
  (forall p, In p (payments_ d) ->
     In (payments.userId p) (users d) /\
     payments.stripeCustomerId p <> None /\
     forall s, payments.subscriptionId p = Some s ->
       In s (map subscriptions.id (subscriptions_ d))).

(** What no write of the service undoes: the users, the payments already
    recorded, and the id and owner of every subscription row, in order. *)
Definition grows_from (d d' : DB) : Prop :=
  users d' = users d /\
  (exists added, payments_ d' = (payments_ d ++ added)%list) /\
  (exists added,
     map (fun r => (subscriptions.id r, subscriptions.userId r))
         (subscriptions_ d')
     = (map (fun r => (subscriptions.id r, subscriptions.userId r))
            (subscriptions_ d) ++ added)%list).

(** ** src/lib/subscription-client.ts and src/hooks/use-subscription.ts *)

Module SubscriptionInfo.
Record t := mk {
  id : string;
  status : string;
  currentPeriodEnd : Date;
  cancelAtPeriodEnd : bool
}.
End SubscriptionInfo.

Module SubscriptionStatus.
Record t := mk {
  hasActiveSubscription : bool;
  subscription : option SubscriptionInfo.t
}.
End SubscriptionStatus.

(** The second argument of [fetch]. *)
Record RequestInit := {
  method : option string;
  credentials : string
}.

(** What [fetch] resolves to: the status code, and the outcome of
    [response.json()] read at the type the caller casts it to. *)
Record FetchResponse (A : Type) := {
  response_status : Z;
  response_json : Result A
}.
Arguments response_status {A} _.
Arguments response_json {A} _.

(** [response.ok] *)
Definition response_ok {A} (response : FetchResponse A) : bool :=
  Z.leb 200 (response_status response)
  && Z.leb (response_status response) 299.

Module SubscriptionClient.
Section SubscriptionClient.

(** [this.baseUrl] *)
Variable baseUrl : string.

Variable fetch :
  string -> RequestInit -> Result (FetchResponse SubscriptionStatus.t).

Definition getSubscriptionStatus : Result SubscriptionStatus.t :=
  match fetch (baseUrl ++ "/subscription/status")
          {| method := None; credentials := "include" |} with
  | Throw err => Throw err
  | Ok response =>
      if negb (response_ok response)
      then Throw (JsError "Error" "Failed to fetch subscription status")
      else response_json response
  end.

End SubscriptionClient.
End SubscriptionClient.

Module useSubscription.

(** The three [useState] cells of the hook. *)
Record State := {
  status : option SubscriptionStatus.t;
  loading : bool;
  error : option Exn
}.

Definition initial : State :=
  {| status := None; loading := true; error := None |}.

(** [loadStatus], given the outcome of
    [subscriptionClient.getSubscriptionStatus()]. *)
Definition loadStatus (outcome : Result SubscriptionStatus.t) (s : State)
  : State :=
  match outcome with
  | Ok subscriptionStatus =>
      {| status := Some subscriptionStatus; loading := false; error := None |}
  | Throw err =>
      {| status := status s; loading := false; error := Some err |}
  end.

(** [refetch]: [setLoading(true)], then [loadStatus()]. *)
Definition refetch (outcome : Result SubscriptionStatus.t) (s : State)
  : State :=
  loadStatus outcome
    {| status := status s; loading := true; error := error s |}.

(** [status?.hasActiveSubscription ?? false] *)
Definition hasActiveSubscription (s : State) : bool :=
  match status s with
  | Some subscriptionStatus =>
      SubscriptionStatus.hasActiveSubscription subscriptionStatus
  | None => false
  end.

End useSubscription.

(** ** More sample data *)

Module SampleApi.

(** A provider that answers every call. *)
Definition api (secretKey : string) : StripeApi :=
  {| core := Sample.provider Sample.charge_succeeded secretKey;
     customers_create := fun params => Ok (Customer.mk "cus_new");
     checkout_sessions_create := fun params =>
       Ok (CheckoutSession.mk "cs_1"
             (Some ("https://checkout.stripe.com/c/"
                    ++ SessionCreateParams.customer params)));
     billingPortal_sessions_create := fun params =>
       Ok (PortalSession.mk
             ("https://billing.stripe.com/p/"
              ++ PortalSessionCreateParams.customer params));
     prices_list := fun params => Ok [];
     products_list := fun params => Ok [] |}.


Definition user_1 : User :=
  {| user_id := "user_1"; user_email := "one@example.com" |}.

Definition user_2 : User :=
  {| user_id := "user_2"; user_email := "two@example.com" |}.

Definition row_2 : subscriptions.row :=
  subscriptions.mk "sub_7" "user_2" "cus_2" "price_1" "prod_1" "past_due"
    (Some false) (Date_of_unix 1700000000) (Date_of_unix 1702592000)
    None None None
    (Some (new_Date 1700000000456)) (Some (new_Date 1700000000456)).

(** Two users: the first with an active subscription, the second past
    due. *)
Definition db2 : DB :=
  {| users := ["user_1"; "user_2"];
     subscriptions_ := [Sample.row; row_2];
     payments_ := [] |}.

Definition trialing_subscription : Subscription.t :=
  Subscription.mk "sub_8" {[ "userId" := "user_2" ]} "cus_2"
    [SubscriptionItem.mk (Price.mk "price_1" "prod_1")]
    "trialing" false 1700000000 1702592000
    (Some 1700000000) (Some 1701209600) None.

(** An update for a subscription the store has never seen. *)
Definition unknown_subscription : Subscription.t :=
  Subscription.mk "sub_404" {[ "userId" := "user_1" ]} "cus_1"
    [SubscriptionItem.mk (Price.mk "price_1" "prod_1")]
    "past_due" false 1700000000 1702592000 None None None.

(** An invoice for a subscription the store has never seen. *)
Definition early_invoice : Invoice.t :=
  Invoice.mk "in_9" (Some {[ "userId" := "user_1" ]}) None
    (Some "pi_9") (Some "sub_404") (Some "cus_1") 4900 "usd" None None
    (Some 1700000400).

(** A subscription for a user id the store does not know. *)
Definition stranger_subscription : Subscription.t :=
  Subscription.mk "sub_9" {[ "userId" := "user_9" ]} "cus_9"
    [SubscriptionItem.mk (Price.mk "price_1" "prod_1")]
    "active" false 1700000000 1702592000 None None None.

Definition past_due_subscription : Subscription.t :=
  Subscription.mk "sub_1" {[ "userId" := "user_1" ]} "cus_1"
    [SubscriptionItem.mk (Price.mk "price_1" "prod_1")]
    "past_due" false 1700000000 1702592000 (Some 1699000000) None None.

(** The same provider some time later: the next customer it creates has
    another id. *)
Definition later (secretKey : string) : StripeApi :=
  {| core := core (api secretKey);
     customers_create := fun params => Ok (Customer.mk "cus_newer");
     checkout_sessions_create := checkout_sessions_create (api secretKey);
     billingPortal_sessions_create :=
       billingPortal_sessions_create (api secretKey);
     prices_list := prices_list (api secretKey);
     products_list := products_list (api secretKey) |}.

Definition loaded : useSubscription.State :=
  {| useSubscription.status :=
       Some (SubscriptionStatus.mk true
               (Some (SubscriptionInfo.mk "sub_1" "active"
                        (Date_of_unix 1702592000) false)));
     useSubscription.loading := false;
     useSubscription.error := None |}.

End SampleApi.

(** ** Running computations *)

Lemma truthy_Some_iff (s : string) : truthy (Some s) = true <-> s <> "".
Proof.
  unfold truthy. destruct (String.eqb_spec s ""); simpl; split; congruence.
Qed.

Lemma truthy_default (v : option string) :
  truthy v = true -> v = Some (default "" v).
Proof. destruct v; simpl; [reflexivity | discriminate]. Qed.

Lemma has_key_true_iff (k : string) (keys : list string) :
  has_key k keys = true <-> In k keys.
Proof.
  unfold has_key. rewrite existsb_exists. split.
  - intros (x & Hx & Heq). apply String.eqb_eq in Heq. now subst.
  - intros Hin. exists k. split; [assumption | apply String.eqb_refl].
Qed.

(** A statement that fails leaves the database alone. *)
Lemma execute_throw (stmt : DB -> Result DB) (d : DB) (err : Exn) :
  result (execute stmt d) = Throw err -> db_after (execute stmt d) = d.
Proof. unfold execute. destruct (stmt d); simpl; [discriminate | reflexivity]. Qed.

Lemma execute_logged (stmt : DB -> Result DB) (d : DB) :
  logged (execute stmt d) = [].
Proof. unfold execute. destruct (stmt d); reflexivity. Qed.

(** *** The service methods write last: one that throws has written nothing. *)

Lemma handleSubscriptionCreated_throw now s d err :
  result (StripeService.handleSubscriptionCreated now s d) = Throw err ->
  db_after (StripeService.handleSubscriptionCreated now s d) = d.
Proof.
  unfold StripeService.handleSubscriptionCreated.
  destruct (negb (truthy _)); [reflexivity |].
  destruct (Subscription.items_data s); [reflexivity |].
  apply execute_throw.
Qed.

Lemma handleInvoicePaymentSucceeded_throw now i d err :
  result (StripeService.handleInvoicePaymentSucceeded now i d) = Throw err ->
  db_after (StripeService.handleInvoicePaymentSucceeded now i d) = d.
Proof.
  unfold StripeService.handleInvoicePaymentSucceeded.
  destruct (negb (truthy _)); [reflexivity |].
  apply execute_throw.
Qed.

Lemma dispatch_throw now event d err :
  result (dispatch now event d) = Throw err ->
  db_after (dispatch now event d) = d /\ logged (dispatch now event d) = [].
Proof.
  destruct event as [i s|i s|i s|i inv|i inv|i s|i t Ht o]; cbn [dispatch];
    try (cbv; discriminate).
  - unfold bind. intros H.
    destruct (result (StripeService.handleSubscriptionCreated now s d)) eqn:E;
      [discriminate H |].
    cbn [db_after logged]. split.
    + eapply handleSubscriptionCreated_throw, E.
    + revert E. unfold StripeService.handleSubscriptionCreated.
      destruct (negb (truthy _)); [reflexivity |].
      destruct (Subscription.items_data s); [reflexivity |].
      intros _. apply execute_logged.
  - unfold bind. intros H.
    destruct (result (StripeService.handleInvoicePaymentSucceeded now inv d))
      eqn:E; [discriminate H |].
    cbn [db_after logged]. split.
    + eapply handleInvoicePaymentSucceeded_throw, E.
    + revert E. unfold StripeService.handleInvoicePaymentSucceeded.
      destruct (negb (truthy _)); [discriminate |].
      intros _. apply execute_logged.
Qed.

(** What the handler does once the signature has verified. *)
Lemma handleStripeWebhook_verified new_Stripe now request env event d :
  verified new_Stripe request env event ->
  handleStripeWebhook new_Stripe now request env d =
    let o := dispatch now event d in
    match result o with
    | Ok _ =>
        {| result := Ok (json_response received 200);
           db_after := db_after o;
           logged := processing_entry event :: logged o |}
    | Throw err =>
        {| result := Ok (json_response received_with_error 200);
           db_after := db_after o;
           logged := processing_entry event :: logged o
                       ++ [processing_error_entry event err] |}
    end.
Proof.
  intros (body & signature & Htext & Hsig & Hne & Hev).
  apply truthy_Some_iff in Hne.
  destruct request as [tx sg]; cbn in Htext, Hsig; subst tx sg.
  unfold handleStripeWebhook, StripeService.verifyWebhookSignature.
  cbv [try_catch bind lift result db_after logged stripe_signature text].
  rewrite Hne. cbv [negb from_option id]. rewrite Hev.
  cbv [logger_ write_log ret].
  destruct (dispatch now event d) as [[v|err] d' l]; cbn.
  - now rewrite app_nil_r.
  - reflexivity.
Qed.

(** What the handler does with a request it turns away. *)
Lemma handleStripeWebhook_missing new_Stripe now request env d body :
  text request = Ok body ->
  truthy (stripe_signature request) = false ->
  handleStripeWebhook new_Stripe now request env d =
    {| result := Ok (text_response "Missing signature" 400);
       db_after := d;
       logged := [ {| logger := "StripeWebhook"; level := Level.error;
                      message := "Missing stripe-signature header";
                      data := [] |} ] |}.
Proof.
  intros Htext Hsig.
  destruct request as [tx sg]; cbn in Htext, Hsig; subst tx.
  unfold handleStripeWebhook.
  cbv [try_catch bind lift result db_after logged stripe_signature text].
  rewrite Hsig. reflexivity.
Qed.

Lemma handleStripeWebhook_invalid new_Stripe now request env d body signature err :
  text request = Ok body ->
  stripe_signature request = Some signature ->
  signature <> "" ->
  StripeService.verifyWebhookSignature (new_Stripe (STRIPE_SECRET_KEY env))
    body signature (STRIPE_WEBHOOK_SECRET env) = Throw err ->
  handleStripeWebhook new_Stripe now request env d =
    {| result := Ok (text_response "Invalid signature" 400);
       db_after := d;
       logged := [ {| logger := "StripeWebhook"; level := Level.error;
                      message := "Webhook signature verification failed";
                      data := [("error", exn_message err)] |} ] |}.
Proof.
  intros Htext Hsig Hne Hev. apply truthy_Some_iff in Hne.
  destruct request as [tx sg]; cbn in Htext, Hsig; subst tx sg.
  unfold handleStripeWebhook.
  cbv [try_catch bind lift result db_after logged stripe_signature text].
  rewrite Hne. cbv [negb from_option id]. rewrite Hev. reflexivity.
Qed.

Lemma Sample_verified (event : Event) :
  verified (Sample.provider event) Sample.signed_request Sample.env event.
Proof.
  exists "payload", "t=1,v1=ok". repeat split. discriminate.
Qed.

(** * Properties of the billing specification *)

(** C2.  When the signature of a webhook request verifies and processing
    the event throws, [handleStripeWebhook] logs the error and answers
    HTTP 200 with the JSON body [{received: true, error: 'Processing
    failed'}]; nothing else happens: the records are as they were and the
    log holds the processing entry followed by the error entry. *)
Theorem processing_failure_is_acknowledged
    new_Stripe now request env event d err :
  verified new_Stripe request env event ->
  result (dispatch now event d) = Throw err ->
  let o := handleStripeWebhook new_Stripe now request env d in
  result o
  = Ok {| status := 200;
          headers := [("Content-Type", "application/json")];
          body := JsonBody
                    (JObject [ ("received", JBool true);
                               ("error", JString "Processing failed") ]) |} /\
  db_after o = d /\
  logged o
  = [ {| logger := "StripeWebhook"; level := Level.info;
         message := "Processing Stripe webhook event";
         data := [("type", event_type event); ("id", event_id event)] |};
      {| logger := "StripeWebhook"; level := Level.error;
         message := "Error processing webhook event";
         data := [("type", event_type event); ("id", event_id event);
                  ("error", exn_message err)] |} ].
Proof.
  intros Hv Hthrow o. subst o.
  rewrite (handleStripeWebhook_verified _ _ _ _ _ _ Hv). cbn zeta.
  destruct (dispatch_throw _ _ _ _ Hthrow) as [Hdb Hlog].
  rewrite Hthrow. cbn [result db_after logged].
  rewrite Hdb, Hlog. repeat split; reflexivity.
Qed.

Lemma processing_failure_is_acknowledged_witness :
  let o := handleStripeWebhook
             (Sample.provider
                (customer_subscription_created "evt_1"
                   Sample.anonymous_subscription))
             (new_Date 1700000000500) Sample.signed_request Sample.env
             Sample.db0 in
  result o
  = Ok {| status := 200;
          headers := [("Content-Type", "application/json")];
          body := JsonBody
                    (JObject [ ("received", JBool true);
                               ("error", JString "Processing failed") ]) |} /\
  db_after o = Sample.db0 /\
  logged o
  = [ {| logger := "StripeWebhook"; level := Level.info;
         message := "Processing Stripe webhook event";
         data := [("type", "customer.subscription.created"); ("id", "evt_1")] |};
      {| logger := "StripeWebhook"; level := Level.error;
         message := "Error processing webhook event";
         data := [("type", "customer.subscription.created"); ("id", "evt_1");
                  ("error", "No userId in subscription metadata")] |} ].
Proof.
  apply (processing_failure_is_acknowledged
           (Sample.provider
              (customer_subscription_created "evt_1"
                 Sample.anonymous_subscription))
           (new_Date 1700000000500) Sample.signed_request Sample.env
           (customer_subscription_created "evt_1" Sample.anonymous_subscription)
           Sample.db0 (JsError "Error" "No userId in subscription metadata")).
  - apply Sample_verified.
  - reflexivity.
Defined.

(** C6.  [verifyWebhookSignature] is the provider's
    [webhooks.constructEvent] on the same payload, signature and secret:
    the same event when it returns, the same error when it throws. *)
Theorem verifyWebhookSignature_delegates
    (stripe : Stripe) (payload signature webhookSecret : string) :
  StripeService.verifyWebhookSignature stripe payload signature webhookSecret
  = webhooks_constructEvent stripe payload signature webhookSecret.
Proof. reflexivity. Qed.

(** C7.  A verified event of type [invoice.payment_failed] or
    [customer.subscription.trial_will_end], or of a type the dispatcher
    does not name, leaves the records unchanged: the handler writes one
    log entry after the processing entry and answers 200 with
    [{received: true}]. *)
Theorem unhandled_event_changes_nothing new_Stripe now request env event d :
  verified new_Stripe request env event ->
  event_type event = "invoice.payment_failed" \/
  event_type event = "customer.subscription.trial_will_end" \/
  is_dispatched (event_type event) = false ->
  let o := handleStripeWebhook new_Stripe now request env d in
  result o = Ok (json_response received 200) /\
  status (json_response received 200) = 200 /\
  db_after o = d /\
  exists entry,
    logged o = [processing_entry event; entry] /\
    logger entry = "StripeWebhook".
Proof.
  intros Hv Hty o. subst o.
  rewrite (handleStripeWebhook_verified _ _ _ _ _ _ Hv). cbn zeta.
  destruct event as [i s|i s|i s|i inv|i inv|i s|i t Ht ob];
    cbn [event_type] in Hty;
    try (exfalso; destruct Hty as [Hty|[Hty|Hty]]; discriminate Hty);
    cbn; repeat split; eexists; split; reflexivity.
Qed.

Lemma unhandled_event_changes_nothing_witness :
  let o := handleStripeWebhook (Sample.provider Sample.charge_succeeded)
             (new_Date 1700000000500) Sample.signed_request Sample.env
             Sample.db1 in
  result o = Ok (json_response received 200) /\
  status (json_response received 200) = 200 /\
  db_after o = Sample.db1 /\
  exists entry,
    logged o = [processing_entry Sample.charge_succeeded; entry] /\
    logger entry = "StripeWebhook".
Proof.
  apply unhandled_event_changes_nothing.
  - apply Sample_verified.
  - right. right. reflexivity.
Defined.

(** C9.  A webhook request that carries no [stripe-signature] header, or
    whose signature the provider rejects, is answered with HTTP 400; no
    event is dispatched: the records are unchanged and the log holds the
    single error entry of the rejection. *)
Theorem unverified_webhook_is_rejected
    new_Stripe now env d (body : string) (header : option string) :
  header = None \/
  (exists signature err,
     header = Some signature /\
     StripeService.verifyWebhookSignature
       (new_Stripe (STRIPE_SECRET_KEY env)) body signature
       (STRIPE_WEBHOOK_SECRET env) = Throw err) ->
  let o := handleStripeWebhook new_Stripe now (delivered body header) env d in
  exists response entry,
    result o = Ok response /\
    status response = 400 /\
    db_after o = d /\
    logged o = [entry] /\
    level entry = Level.error.
Proof.
  intros [Hnone | (signature & err & Hsig & Hev)] o; subst o.
  - rewrite (handleStripeWebhook_missing _ _ (delivered body header) _ _ body)
      by (subst header; reflexivity).
    do 2 eexists. repeat split; reflexivity.
  - destruct (truthy header) eqn:Et.
    + rewrite Hsig in Et. apply truthy_Some_iff in Et.
      rewrite (handleStripeWebhook_invalid _ _ (delivered body header) _ _
                 body signature err eq_refl Hsig Et Hev).
      do 2 eexists. repeat split; reflexivity.
    + rewrite (handleStripeWebhook_missing _ _ (delivered body header) _ _ body
                 eq_refl Et).
      do 2 eexists. repeat split; reflexivity.
Qed.

Lemma unverified_webhook_is_rejected_witness :
  let o := handleStripeWebhook
             (Sample.provider
                (customer_subscription_deleted "evt_2" Sample.subscription))
             (new_Date 1700000000500)
             (delivered "payload" (Some "t=1,v1=forged")) Sample.env
             Sample.db1 in
  exists response entry,
    result o = Ok response /\
    status response = 400 /\
    db_after o = Sample.db1 /\
    logged o = [entry] /\
    level entry = Level.error.
Proof.
  apply (unverified_webhook_is_rejected _ _ _ _ "payload"
           (Some "t=1,v1=forged")).
  right. do 2 eexists. split; reflexivity.
Defined.

Example missing_signature_sample :
  handleStripeWebhook (Sample.provider Sample.charge_succeeded)
    (new_Date 1700000000500) Sample.unsigned_request Sample.env Sample.db1
  = {| result := Ok (text_response "Missing signature" 400);
       db_after := Sample.db1;
       logged := [ {| logger := "StripeWebhook"; level := Level.error;
                      message := "Missing stripe-signature header";
                      data := [] |} ] |}.
Proof. reflexivity. Qed.

(** The outer [catch]: a fault of the platform while the body is read is
    answered with 500. *)
Example unreadable_body_sample :
  let o := handleStripeWebhook (Sample.provider Sample.charge_succeeded)
             (new_Date 1700000000500)
             {| text := Throw (JsError "TypeError" "Body has already been used");
                stripe_signature := Some "t=1,v1=ok" |}
             Sample.env Sample.db1 in
  result o = Ok (text_response "Webhook handler error" 500) /\
  db_after o = Sample.db1.
Proof. split; reflexivity. Qed.

(** C10.  A missing userId is treated differently by the two write paths:
    [handleSubscriptionCreated] throws when the subscription's metadata has
    no userId, so nothing is inserted and the dispatcher answers on its
    error path; [handleInvoicePaymentSucceeded] only warns and returns,
    writing nothing, when neither the invoice's metadata nor its
    subscription details' metadata has one, and the dispatcher answers
    [{received: true}]. *)
Theorem missing_userId_asymmetry new_Stripe now request env d :
  (forall id subscription,
     truthy (Subscription.metadata subscription !! "userId") = false ->
     StripeService.handleSubscriptionCreated now subscription d
     = {| result := Throw (JsError "Error" "No userId in subscription metadata");
          db_after := d; logged := [] |} /\
     (verified new_Stripe request env
        (customer_subscription_created id subscription) ->
      let o := handleStripeWebhook new_Stripe now request env d in
      result o = Ok (json_response received_with_error 200) /\
      db_after o = d))
  /\
  (forall id invoice,
     truthy (StripeService.optional_userId (Invoice.metadata invoice)) = false ->
     truthy (StripeService.optional_userId
               (StripeService.optional_metadata
                  (Invoice.subscription_details invoice))) = false ->
     StripeService.handleInvoicePaymentSucceeded now invoice d
     = {| result := Ok tt; db_after := d;
          logged := [ {| logger := "console"; level := Level.warn;
                         message := "No userId in invoice metadata";
                         data := [] |} ] |} /\
     (verified new_Stripe request env (invoice_payment_succeeded id invoice) ->
      let o := handleStripeWebhook new_Stripe now request env d in
      result o = Ok (json_response received 200) /\
      db_after o = d)).
Proof.
  split.
  - intros id subscription Hno.
    assert (Hrun : StripeService.handleSubscriptionCreated now subscription d
                   = {| result := Throw (JsError "Error"
                                           "No userId in subscription metadata");
                        db_after := d; logged := [] |}).
    { unfold StripeService.handleSubscriptionCreated. now rewrite Hno. }
    split; [exact Hrun |].
    intros Hv o. subst o.
    rewrite (handleStripeWebhook_verified _ _ _ _ _ _ Hv).
    cbn [dispatch]. unfold bind. rewrite Hrun. cbn. split; reflexivity.
  - intros id invoice Hmeta Hdetails.
    assert (Hrun : StripeService.handleInvoicePaymentSucceeded now invoice d
                   = {| result := Ok tt; db_after := d;
                        logged := [ {| logger := "console"; level := Level.warn;
                                       message := "No userId in invoice metadata";
                                       data := [] |} ] |}).
    { unfold StripeService.handleInvoicePaymentSucceeded,
        StripeService.invoice_userId, js_or.
      now rewrite Hmeta, Hdetails. }
    split; [exact Hrun |].
    intros Hv o. subst o.
    rewrite (handleStripeWebhook_verified _ _ _ _ _ _ Hv).
    cbn [dispatch]. unfold bind. rewrite Hrun. cbn. split; reflexivity.
Qed.

Lemma missing_userId_asymmetry_witness :
  (let o := handleStripeWebhook
              (Sample.provider
                 (customer_subscription_created "evt_1"
                    Sample.anonymous_subscription))
              (new_Date 1700000000500) Sample.signed_request Sample.env
              Sample.db1 in
   result o = Ok (json_response received_with_error 200) /\
   db_after o = Sample.db1)
  /\
  (let o := handleStripeWebhook
              (Sample.provider
                 (invoice_payment_succeeded "evt_3" Sample.anonymous_invoice))
              (new_Date 1700000000500) Sample.signed_request Sample.env
              Sample.db1 in
   result o = Ok (json_response received 200) /\
   db_after o = Sample.db1).
Proof.
  split.
  - apply (proj1 (missing_userId_asymmetry _ _ _ _ _) "evt_1"
             Sample.anonymous_subscription).
    + reflexivity.
    + apply Sample_verified.
  - apply (proj2 (missing_userId_asymmetry _ _ _ _ _) "evt_3"
             Sample.anonymous_invoice).
    + reflexivity.
    + reflexivity.
    + apply Sample_verified.
Defined.

(** *** Updates by id and the active-subscription query *)

Lemma find_map_stable {A} (p : A -> bool) (f : A -> A) (l : list A) :
  (forall x, p (f x) = p x) ->
  find p (map f l) = option_map f (find p l).
Proof.
  intros Hp. induction l as [|x l IH]; [reflexivity |].
  cbn [map find]. rewrite Hp. destruct (p x); [reflexivity | exact IH].
Qed.

Lemma Forall2_map_self {A} (R : A -> A -> Prop) (f : A -> A) (l : list A) :
  (forall x, R x (f x)) -> Forall2 R l (map f l).
Proof.
  intros HR. induction l as [|x l IH]; cbn [map]; constructor; auto.
Qed.

Lemma same_but_cancel_flag_refl r : same_but_cancel_flag r r.
Proof. unfold same_but_cancel_flag. repeat split. Qed.

Lemma set_cancelAtPeriodEnd_same now flag r :
  same_but_cancel_flag r (StripeService.set_cancelAtPeriodEnd now flag r).
Proof. unfold same_but_cancel_flag. repeat split. Qed.

Lemma only_cancel_flag_written_refl subscriptionId d :
  only_cancel_flag_written subscriptionId d d.
Proof.
  repeat split. rewrite <- (map_id (subscriptions_ d)) at 2.
  apply Forall2_map_self. intros r. split; [apply same_but_cancel_flag_refl | auto].
Qed.

Lemma only_cancel_flag_written_update now flag subscriptionId d :
  only_cancel_flag_written subscriptionId d
    (update_subscriptions_where_id subscriptionId
       (StripeService.set_cancelAtPeriodEnd now flag) d).
Proof.
  repeat split. cbn [subscriptions_ update_subscriptions_where_id].
  apply Forall2_map_self. intros r.
  destruct (String.eqb_spec (subscriptions.id r) subscriptionId) as [Heq|Hne].
  - split; [apply set_cancelAtPeriodEnd_same | congruence].
  - split; [apply same_but_cancel_flag_refl | reflexivity].
Qed.

Lemma active_subscriptions_kept_refl d : active_subscriptions_kept d d.
Proof.
  intros userId. split; [reflexivity |].
  intros r Hr. exists r. split; [exact Hr |]. split; [reflexivity |].
  cbn in Hr. injection Hr as Hr. apply find_some in Hr as [_ Hp].
  apply andb_true_iff in Hp as [_ Hs]. now apply String.eqb_eq in Hs.
Qed.

Lemma active_subscriptions_kept_update now flag subscriptionId d :
  active_subscriptions_kept d
    (update_subscriptions_where_id subscriptionId
       (StripeService.set_cancelAtPeriodEnd now flag) d).
Proof.
  intros userId.
  assert (Hfind :
    select_subscription_by_user_and_status userId "active"
      (update_subscriptions_where_id subscriptionId
         (StripeService.set_cancelAtPeriodEnd now flag) d)
    = option_map
        (fun r => if String.eqb (subscriptions.id r) subscriptionId
                  then StripeService.set_cancelAtPeriodEnd now flag r else r)
        (select_subscription_by_user_and_status userId "active" d)).
  { unfold select_subscription_by_user_and_status.
    cbn [subscriptions_ update_subscriptions_where_id].
    apply find_map_stable. intros r.
    destruct (String.eqb (subscriptions.id r) subscriptionId); reflexivity. }
  unfold StripeService.hasActiveSubscription, StripeService.getUserSubscription,
    bind, query.
  cbn [result db_after logged]. rewrite Hfind.
  split.
  - destruct (select_subscription_by_user_and_status userId "active" d);
      reflexivity.
  - intros r Hr. injection Hr as Hr. rewrite Hr.
    eexists. split; [reflexivity |].
    apply find_some in Hr as [_ Hp].
      apply andb_true_iff in Hp as [_ Hs]. apply String.eqb_eq in Hs.
      destruct (String.eqb (subscriptions.id r) subscriptionId);
        split; first [reflexivity | exact Hs].
Qed.

(** C8.  [cancelSubscription] and [reactivateSubscription] write only
    [cancelAtPeriodEnd] and [updatedAt], and only in the row whose id
    matches; [status] is never written.  Hence after either call every
    user has the active subscription that was found before, still with
    status ['active'], and [hasActiveSubscription] answers as before. *)
Theorem cancel_and_reactivate_keep_status stripe now subscriptionId d :
  let canceled :=
    db_after (StripeService.cancelSubscription stripe now subscriptionId d) in
  let reactivated :=
    db_after (StripeService.reactivateSubscription stripe now subscriptionId d) in
  (only_cancel_flag_written subscriptionId d canceled /\
   active_subscriptions_kept d canceled) /\
  (only_cancel_flag_written subscriptionId d reactivated /\
   active_subscriptions_kept d reactivated).
Proof.
  unfold StripeService.cancelSubscription, StripeService.reactivateSubscription,
    bind, lift, execute.
  cbn [result db_after logged].
  split.
  - destruct (subscriptions_update stripe subscriptionId true);
      cbn [db_after]; split;
      auto using only_cancel_flag_written_refl, active_subscriptions_kept_refl,
        only_cancel_flag_written_update, active_subscriptions_kept_update.
  - destruct (subscriptions_update stripe subscriptionId false);
      cbn [db_after]; split;
      auto using only_cancel_flag_written_refl, active_subscriptions_kept_refl,
        only_cancel_flag_written_update, active_subscriptions_kept_update.
Qed.

(** After a successful cancel the sample row is flagged and still active. *)
Example cancel_sample :
  let o := StripeService.cancelSubscription (Sample.provider Sample.charge_succeeded "sk_test")
             (new_Date 1700000500000) "sub_1" Sample.db1 in
  map (fun r => (subscriptions.status r, subscriptions.cancelAtPeriodEnd r,
                 subscriptions.updatedAt r))
      (subscriptions_ (db_after o))
  = [("active", Some true, Some (new_Date 1700000500000))] /\
  result (StripeService.hasActiveSubscription "user_1" (db_after o)) = Ok true.
Proof. split; reflexivity. Qed.

(** C5.  GET /api/subscription/status reads through to the store.
    Without an authenticated user the answer is the base controller's
    error response for status 401 (so its status is 401, the helper
    passing the status code on).  Otherwise the answer is the success
    response carrying [hasActiveSubscription] and [subscription]: when the
    store has a row of that user with status ['active'], the flag is
    [true] and [subscription] holds the id, status, [currentPeriodEnd]
    and [cancelAtPeriodEnd] of such a row; when it has none, the flag is
    [false] and [subscription] is [null].  The store is not written. *)
Theorem status_endpoint_reads_through base new_Stripe env routeContext d :
  (forall message statusCode,
     status (createErrorResponse base message statusCode) = statusCode) ->
  let o := SubscriptionController.getSubscriptionStatus
             base new_Stripe env routeContext d in
  db_after o = d /\
  match user routeContext with
  | None =>
      result o = Ok (createErrorResponse base "Unauthorized" 401) /\
      status (createErrorResponse base "Unauthorized" 401) = 401
  | Some u =>
      exists payload,
        result o = Ok (createSuccessResponse base payload) /\
        ((exists row,
            In row (subscriptions_ d) /\
            subscriptions.userId row = user_id u /\
            subscriptions.status row = "active" /\
            payload =
              JObject
                [ ("hasActiveSubscription", JBool true);
                  ("subscription",
                    JObject
                      [ ("id", JString (subscriptions.id row));
                        ("status", JString (subscriptions.status row));
                        ("currentPeriodEnd",
                          JDate (subscriptions.currentPeriodEnd row));
                        ("cancelAtPeriodEnd",
                          match subscriptions.cancelAtPeriodEnd row with
                          | Some flag => JBool flag
                          | None => JNull
                          end) ]) ])
         \/
         ((forall row,
             In row (subscriptions_ d) ->
             ~ (subscriptions.userId row = user_id u /\
                subscriptions.status row = "active")) /\
          payload =
            JObject [ ("hasActiveSubscription", JBool false);
                      ("subscription", JNull) ]))
  end.
Proof.
  intros Hstatus. unfold SubscriptionController.getSubscriptionStatus.
  destruct (user routeContext) as [u|]; cbn.
  - split; [reflexivity |]. eexists. split; [reflexivity |].
    unfold select_subscription_by_user_and_status.
    destruct (find _ (subscriptions_ d)) as [row|] eqn:Hfind.
    + left. exists row. apply find_some in Hfind as [Hin Hp].
      apply andb_true_iff in Hp as [Hu Hs].
      apply String.eqb_eq in Hu, Hs. repeat split; assumption.
    + right. split; [| reflexivity].
      intros row Hin [Hu Hs].
      apply (find_none _ _ Hfind) in Hin.
      rewrite Hu, Hs, !String.eqb_refl in Hin. discriminate.
  - split; [reflexivity |]. split; [reflexivity | apply Hstatus].
Qed.

Lemma status_endpoint_reads_through_witness :
  let o := SubscriptionController.getSubscriptionStatus
             Sample.base (Sample.provider Sample.charge_succeeded) Sample.env
             {| user := None |} Sample.db1 in
  db_after o = Sample.db1 /\
  result o = Ok (createErrorResponse Sample.base "Unauthorized" 401) /\
  status (createErrorResponse Sample.base "Unauthorized" 401) = 401.
Proof.
  apply (status_endpoint_reads_through Sample.base
           (Sample.provider Sample.charge_succeeded) Sample.env
           {| user := None |} Sample.db1).
  reflexivity.
Defined.

Example status_sample :
  result (SubscriptionController.getSubscriptionStatus
            Sample.base (Sample.provider Sample.charge_succeeded) Sample.env
            {| user := Some {| user_id := "user_1";
                               user_email := "user@example.com" |} |}
            Sample.db1)
  = Ok (json_response
          (JObject
             [ ("hasActiveSubscription", JBool true);
               ("subscription",
                 JObject [ ("id", JString "sub_1");
                           ("status", JString "active");
                           ("currentPeriodEnd",
                             JDate (new_Date 1702592000000));
                           ("cancelAtPeriodEnd", JBool false) ]) ])
          200).
Proof. reflexivity. Qed.

(** *** The rows the two inserting handlers build *)

Lemma Date_of_optional_unix_mirrors (t : option Z) :
  mirrors_timestamp t (Date_of_optional_unix t).
Proof.
  unfold mirrors_timestamp, Date_of_optional_unix.
  destruct t as [n|]; split; try congruence.
  intros seconds [= ->] Hne. destruct (Z.eqb_spec seconds 0); congruence.
Qed.

Lemma insert_subscription_Ok r d d' :
  insert_subscription r d = Ok d' ->
  users d' = users d /\
  subscriptions_ d' = (subscriptions_ d ++ [r])%list /\
  payments_ d' = payments_ d.
Proof.
  unfold insert_subscription.
  destruct (has_key _ (map _ _)); [discriminate |].
  destruct (negb _); [discriminate |].
  intros [= <-]. repeat split.
Qed.

Lemma insert_payment_Ok r d d' :
  insert_payment r d = Ok d' ->
  users d' = users d /\
  subscriptions_ d' = subscriptions_ d /\
  payments_ d' = (payments_ d ++ [r])%list.
Proof.
  unfold insert_payment.
  destruct (payments.stripeCustomerId r); [| discriminate].
  destruct (has_key _ (map _ _)); [discriminate |].
  destruct (negb _); [discriminate |].
  destruct (match payments.subscriptionId r with Some _ => _ | None => _ end);
    [discriminate |].
  intros [= <-]. repeat split.
Qed.

Lemma execute_Ok (stmt : DB -> Result DB) (d : DB) :
  result (execute stmt d) = Ok tt -> stmt d = Ok (db_after (execute stmt d)).
Proof. unfold execute. destruct (stmt d); [reflexivity | discriminate]. Qed.

Lemma js_or_else_truthy (a : option string) (d s : string) :
  a = Some s -> s <> "" -> js_or_else a d = s.
Proof.
  intros -> Hne. unfold js_or_else.
  destruct (String.eqb_spec s ""); congruence.
Qed.

(** C3, as the code has it.  When an invoice carries a userId and the
    insert goes through, [handleInvoicePaymentSucceeded] appends one
    payments row: its id is the invoice's payment intent id when the
    invoice has one and ['pi_'] followed by the invoice id when the
    payment intent is absent; amount, currency, customer, invoice id and
    receipt URL are the invoice's, status is ['succeeded'], the
    subscription id is the invoice's (null when absent), and [paidAt] is
    the date of the invoice's [paid_at] in Unix seconds. *)
Theorem payment_row_mirrors_invoice now invoice d :
  truthy (StripeService.invoice_userId invoice) = true ->
  result (StripeService.handleInvoicePaymentSucceeded now invoice d) = Ok tt ->
  let d' := db_after (StripeService.handleInvoicePaymentSucceeded now invoice d) in
  exists row,
    payments_ d' = (payments_ d ++ [row])%list /\
    subscriptions_ d' = subscriptions_ d /\
    users d' = users d /\
    (forall intent, Invoice.payment_intent invoice = Some intent ->
       intent <> "" -> payments.id row = intent) /\
    (Invoice.payment_intent invoice = None ->
       payments.id row = "pi_" ++ Invoice.id invoice) /\
    Some (payments.userId row) = StripeService.invoice_userId invoice /\
    payments.amount row = Invoice.amount_paid invoice /\
    payments.currency row = Invoice.currency invoice /\
    payments.status row = "succeeded" /\
    payments.subscriptionId row
      = (if truthy (Invoice.subscription invoice)
         then Invoice.subscription invoice else None) /\
    payments.stripeCustomerId row = Invoice.customer invoice /\
    payments.stripeInvoiceId row = Some (Invoice.id invoice) /\
    payments.receiptUrl row = Invoice.hosted_invoice_url invoice /\
    (forall seconds,
       Invoice.status_transitions_paid_at invoice = Some seconds ->
       payments.paidAt row = Some (Date_of_unix seconds)).
Proof.
  intros Huser. unfold StripeService.handleInvoicePaymentSucceeded.
  rewrite Huser. cbn [negb]. intros Hok.
  apply execute_Ok, insert_payment_Ok in Hok as (Hu & Hs & Hp).
  eexists. split; [exact Hp |]. split; [exact Hs |]. split; [exact Hu |].
  cbn [StripeService.newPayment payments.id payments.userId payments.amount
       payments.currency payments.status payments.subscriptionId
       payments.stripeCustomerId payments.stripeInvoiceId payments.receiptUrl
       payments.paidAt].
  repeat split.
  - intros intent Hi Hne. now apply js_or_else_truthy.
  - intros ->. reflexivity.
  - symmetry. now apply truthy_default.
  - intros seconds ->. reflexivity.
Qed.

Lemma payment_row_mirrors_invoice_witness :
  let d' := db_after (StripeService.handleInvoicePaymentSucceeded
                        (new_Date 1700000100900) Sample.invoice Sample.db1) in
  exists row,
    payments_ d' = (payments_ Sample.db1 ++ [row])%list /\
    subscriptions_ d' = subscriptions_ Sample.db1 /\
    users d' = users Sample.db1 /\
    (forall intent, Invoice.payment_intent Sample.invoice = Some intent ->
       intent <> "" -> payments.id row = intent) /\
    (Invoice.payment_intent Sample.invoice = None ->
       payments.id row = "pi_" ++ Invoice.id Sample.invoice) /\
    Some (payments.userId row) = StripeService.invoice_userId Sample.invoice /\
    payments.amount row = Invoice.amount_paid Sample.invoice /\
    payments.currency row = Invoice.currency Sample.invoice /\
    payments.status row = "succeeded" /\
    payments.subscriptionId row
      = (if truthy (Invoice.subscription Sample.invoice)
         then Invoice.subscription Sample.invoice else None) /\
    payments.stripeCustomerId row = Invoice.customer Sample.invoice /\
    payments.stripeInvoiceId row = Some (Invoice.id Sample.invoice) /\
    payments.receiptUrl row = Invoice.hosted_invoice_url Sample.invoice /\
    (forall seconds,
       Invoice.status_transitions_paid_at Sample.invoice = Some seconds ->
       payments.paidAt row = Some (Date_of_unix seconds)).
Proof.
  apply (payment_row_mirrors_invoice (new_Date 1700000100900)
           Sample.invoice Sample.db1).
  - reflexivity.
  - reflexivity.
Defined.

(** C3 as stated fails: an invoice settled without a payment intent is
    stored under the id ['pi_in_2'], which is not a payment intent id of
    the invoice (it has none). *)
Lemma payment_id_without_intent :
  let o := StripeService.handleInvoicePaymentSucceeded
             (new_Date 1700000200900) Sample.invoice_without_intent
             Sample.db1 in
  result o = Ok tt /\
  exists row,
    payments_ (db_after o) = [row] /\
    payments.id row = "pi_in_2" /\
    Some (payments.id row)
      <> Invoice.payment_intent Sample.invoice_without_intent.
Proof.
  split; [reflexivity |].
  eexists. split; [reflexivity |]. split; [reflexivity |]. discriminate.
Qed.

Lemma set_updated_written now subscription r :
  written_by_update now subscription r
    (StripeService.set_updated now subscription r).
Proof.
  unfold written_by_update.
  repeat (split; [reflexivity |]).
  split; [apply Date_of_optional_unix_mirrors |].
  repeat split.
Qed.

(** C4, as the code has it.  When [handleSubscriptionCreated] succeeds it
    appends one subscriptions row that mirrors the event: id, status and
    [cancelAtPeriodEnd] are the event's; [currentPeriodStart],
    [currentPeriodEnd], [trialStart] and [trialEnd] are the dates of the
    event's Unix-second timestamps (null trial fields stay null); userId
    comes from the event's metadata, the customer id from the event and
    the price and product ids from its first subscription item.
    [handleSubscriptionUpdated] writes, in each row with the event's id,
    only status, [cancelAtPeriodEnd], the two period dates, [canceledAt]
    and [updatedAt]: the trial dates and the user, customer, price and
    product ids of the row are not written; other rows are untouched. *)
Theorem subscription_row_mirrors_event now subscription d :
  (result (StripeService.handleSubscriptionCreated now subscription d) = Ok tt ->
   let d' := db_after (StripeService.handleSubscriptionCreated now subscription d) in
   exists row item0 rest,
     Subscription.items_data subscription = item0 :: rest /\
     subscriptions_ d' = (subscriptions_ d ++ [row])%list /\
     payments_ d' = payments_ d /\
     users d' = users d /\
     subscriptions.id row = Subscription.id subscription /\
     subscriptions.status row = Subscription.status subscription /\
     subscriptions.cancelAtPeriodEnd row
       = Some (Subscription.cancel_at_period_end subscription) /\
     subscriptions.currentPeriodStart row
       = Date_of_unix (Subscription.current_period_start subscription) /\
     subscriptions.currentPeriodEnd row
       = Date_of_unix (Subscription.current_period_end subscription) /\
     mirrors_timestamp (Subscription.trial_start subscription)
       (subscriptions.trialStart row) /\
     mirrors_timestamp (Subscription.trial_end subscription)
       (subscriptions.trialEnd row) /\
     Some (subscriptions.userId row)
       = Subscription.metadata subscription !! "userId" /\
     subscriptions.stripeCustomerId row = Subscription.customer subscription /\
     subscriptions.stripePriceId row = Price.id (SubscriptionItem.price item0) /\
     subscriptions.stripeProductId row
       = Price.product (SubscriptionItem.price item0))
  /\
  (let o := StripeService.handleSubscriptionUpdated now subscription d in
   result o = Ok tt /\
   users (db_after o) = users d /\
   payments_ (db_after o) = payments_ d /\
   Forall2 (fun r r' =>
              (subscriptions.id r = Subscription.id subscription ->
               written_by_update now subscription r r') /\
              (subscriptions.id r <> Subscription.id subscription -> r' = r))
           (subscriptions_ d) (subscriptions_ (db_after o))).
Proof.
  split.
  - unfold StripeService.handleSubscriptionCreated.
    destruct (truthy (Subscription.metadata subscription !! "userId")) eqn:Hu;
      cbn [negb]; [| discriminate].
    destruct (Subscription.items_data subscription) as [|item0 rest];
      [discriminate |].
    intros Hok.
    apply execute_Ok, insert_subscription_Ok in Hok as (Hus & Hs & Hp).
    cbn zeta. exists (StripeService.newSub now subscription
                        (default "" (Subscription.metadata subscription
                                       !! "userId")) item0), item0, rest.
    split; [reflexivity |]. split; [exact Hs |]. split; [exact Hp |].
    split; [exact Hus |].
    cbn [StripeService.newSub subscriptions.id subscriptions.status
         subscriptions.cancelAtPeriodEnd subscriptions.currentPeriodStart
         subscriptions.currentPeriodEnd subscriptions.trialStart
         subscriptions.trialEnd subscriptions.userId
         subscriptions.stripeCustomerId subscriptions.stripePriceId
         subscriptions.stripeProductId].
    repeat (split; [reflexivity |]).
    split; [apply Date_of_optional_unix_mirrors |].
    split; [apply Date_of_optional_unix_mirrors |].
    split; [symmetry; now apply truthy_default |].
    repeat split.
  - cbn. repeat split. apply Forall2_map_self. intros r.
    destruct (String.eqb_spec (subscriptions.id r) (Subscription.id subscription)).
    + split; [intros _; apply set_updated_written | congruence].
    + split; [congruence | reflexivity].
Qed.

Lemma subscription_row_mirrors_event_witness :
  let d' := db_after (StripeService.handleSubscriptionCreated
                        (new_Date 1700000000500) Sample.subscription
                        Sample.db0) in
  exists row item0 rest,
    Subscription.items_data Sample.subscription = item0 :: rest /\
    subscriptions_ d' = (subscriptions_ Sample.db0 ++ [row])%list /\
    payments_ d' = payments_ Sample.db0 /\
    users d' = users Sample.db0 /\
    subscriptions.id row = "sub_1" /\
    subscriptions.status row = "active" /\
    subscriptions.cancelAtPeriodEnd row = Some false /\
    subscriptions.currentPeriodStart row = Date_of_unix 1700000000 /\
    subscriptions.currentPeriodEnd row = Date_of_unix 1702592000 /\
    mirrors_timestamp (Some 1699000000) (subscriptions.trialStart row) /\
    mirrors_timestamp None (subscriptions.trialEnd row) /\
    Some (subscriptions.userId row)
      = Subscription.metadata Sample.subscription !! "userId" /\
    subscriptions.stripeCustomerId row = "cus_1" /\
    subscriptions.stripePriceId row = Price.id (SubscriptionItem.price item0) /\
    subscriptions.stripeProductId row
      = Price.product (SubscriptionItem.price item0).
Proof.
  apply (proj1 (subscription_row_mirrors_event (new_Date 1700000000500)
                  Sample.subscription Sample.db0)).
  reflexivity.
Defined.

(** C4 as stated fails: [handleSubscriptionUpdated] does not write all
    the corresponding fields of the row.  After an update event for a
    change of plan the row with the event's id still holds the old price
    and product ids, not those of the event's first item. *)
Lemma update_keeps_price :
  let o := StripeService.handleSubscriptionUpdated (new_Date 1700000900000)
             Sample.upgraded_subscription Sample.db1 in
  result o = Ok tt /\
  exists row item0,
    subscriptions_ (db_after o) = [row] /\
    subscriptions.id row = Subscription.id Sample.upgraded_subscription /\
    Subscription.items_data Sample.upgraded_subscription = [item0] /\
    subscriptions.stripePriceId row = "price_1" /\
    Price.id (SubscriptionItem.price item0) = "price_2" /\
    subscriptions.stripePriceId row <> Price.id (SubscriptionItem.price item0) /\
    subscriptions.stripeProductId row
      <> Price.product (SubscriptionItem.price item0).
Proof.
  split; [reflexivity |]. do 2 eexists.
  repeat (split; [reflexivity |]). split; discriminate.
Qed.

(** *** Delivering an event a second time *)

Lemma db_after_then_log {A} (m : M A) lvl msg fields d :
  db_after ((m >> logger_ lvl msg fields) d) = db_after (m d).
Proof. unfold bind. destruct (result (m d)); reflexivity. Qed.

Lemma result_then_log (m : M unit) lvl msg fields d :
  result ((m >> logger_ lvl msg fields) d) = result (m d).
Proof. unfold bind. destruct (result (m d)) as [[]|]; reflexivity. Qed.

Lemma handleStripeWebhook_db new_Stripe now request env event d :
  verified new_Stripe request env event ->
  db_after (handleStripeWebhook new_Stripe now request env d)
  = db_after (dispatch now event d).
Proof.
  intros Hv. rewrite (handleStripeWebhook_verified _ _ _ _ _ _ Hv). cbn zeta.
  destruct (result (dispatch now event d)); reflexivity.
Qed.

Lemma handleStripeWebhook_result new_Stripe now request env event d :
  verified new_Stripe request env event ->
  result (handleStripeWebhook new_Stripe now request env d)
  = Ok (json_response
          (match result (dispatch now event d) with
           | Ok _ => received
           | Throw _ => received_with_error
           end) 200).
Proof.
  intros Hv. rewrite (handleStripeWebhook_verified _ _ _ _ _ _ Hv). cbn zeta.
  destruct (result (dispatch now event d)); reflexivity.
Qed.

Lemma has_key_app_last k keys : has_key k (keys ++ [k]) = true.
Proof.
  apply has_key_true_iff, in_or_app. right. now left.
Qed.

(** A second insert under the key of a row just inserted is refused by
    the primary key. *)
Lemma insert_subscription_twice r1 r2 d d1 :
  subscriptions.id r2 = subscriptions.id r1 ->
  insert_subscription r1 d = Ok d1 ->
  insert_subscription r2 d1 = Throw (SQLITE_CONSTRAINT "UNIQUE").
Proof.
  intros Hid. unfold insert_subscription.
  destruct (has_key (subscriptions.id r1) _); [discriminate |].
  destruct (negb _); [discriminate |].
  intros [= <-]. cbn [subscriptions_]. rewrite List.map_app. cbn [map].
  rewrite Hid, has_key_app_last. reflexivity.
Qed.

(** An insert that was refused is refused again, for the same reason, when
    the row has the same keys. *)
Lemma insert_subscription_refused r1 r2 d err :
  subscriptions.id r2 = subscriptions.id r1 ->
  subscriptions.userId r2 = subscriptions.userId r1 ->
  insert_subscription r1 d = Throw err ->
  insert_subscription r2 d = Throw err.
Proof.
  intros Hid Hu. unfold insert_subscription. rewrite Hid, Hu.
  destruct (has_key (subscriptions.id r1) _); [trivial |].
  destruct (negb _); [trivial | discriminate].
Qed.

Lemma insert_payment_twice r1 r2 d d1 :
  payments.id r2 = payments.id r1 ->
  payments.stripeCustomerId r2 = payments.stripeCustomerId r1 ->
  insert_payment r1 d = Ok d1 ->
  insert_payment r2 d1 = Throw (SQLITE_CONSTRAINT "UNIQUE").
Proof.
  intros Hid Hc. unfold insert_payment. rewrite Hid, Hc.
  destruct (payments.stripeCustomerId r1); [| discriminate].
  destruct (has_key (payments.id r1) _); [discriminate |].
  destruct (negb _); [discriminate |].
  destruct (match payments.subscriptionId r1 with Some _ => _ | None => _ end);
    [discriminate |].
  intros [= <-]. cbn [payments_]. rewrite List.map_app. cbn [map].
  rewrite has_key_app_last. reflexivity.
Qed.

Lemma insert_payment_refused r1 r2 d err :
  payments.id r2 = payments.id r1 ->
  payments.userId r2 = payments.userId r1 ->
  payments.subscriptionId r2 = payments.subscriptionId r1 ->
  payments.stripeCustomerId r2 = payments.stripeCustomerId r1 ->
  insert_payment r1 d = Throw err ->
  insert_payment r2 d = Throw err.
Proof.
  intros Hid Hu Hs Hc. unfold insert_payment. rewrite Hid, Hu, Hs, Hc.
  destruct (payments.stripeCustomerId r1); [| trivial].
  destruct (has_key (payments.id r1) _); [trivial |].
  destruct (negb _); [trivial |].
  destruct (match payments.subscriptionId r1 with Some _ => _ | None => _ end);
    [trivial | discriminate].
Qed.

Lemma execute_twice (stmt1 stmt2 : DB -> Result DB) (d : DB) (err : Exn) :
  (forall d1, stmt1 d = Ok d1 -> stmt2 d1 = Throw err) ->
  result (execute stmt1 d) = Ok tt ->
  execute stmt2 (db_after (execute stmt1 d))
  = {| result := Throw err; db_after := db_after (execute stmt1 d);
       logged := [] |}.
Proof.
  intros H. unfold execute at 1 3 4. destruct (stmt1 d) as [d1|e] eqn:E;
    [| discriminate].
  intros _. cbn [db_after]. unfold execute. now rewrite (H d1 eq_refl).
Qed.

Lemma execute_refused (stmt1 stmt2 : DB -> Result DB) (d : DB) (err : Exn) :
  (forall e, stmt1 d = Throw e -> stmt2 d = Throw e) ->
  result (execute stmt1 d) = Throw err ->
  execute stmt2 d = execute stmt1 d.
Proof.
  intros H. unfold execute. destruct (stmt1 d) as [d1|e] eqn:E;
    [discriminate |].
  intros _. now rewrite (H e eq_refl).
Qed.

Lemma handleSubscriptionCreated_twice now1 now2 s d :
  let o1 := StripeService.handleSubscriptionCreated now1 s d in
  result o1 = Ok tt ->
  StripeService.handleSubscriptionCreated now2 s (db_after o1)
  = {| result := Throw (SQLITE_CONSTRAINT "UNIQUE");
       db_after := db_after o1; logged := [] |}.
Proof.
  unfold StripeService.handleSubscriptionCreated.
  destruct (negb (truthy _)); [discriminate |].
  destruct (Subscription.items_data s) as [|item0 rest]; [discriminate |].
  apply execute_twice. intros d1. now apply insert_subscription_twice.
Qed.

Lemma handleSubscriptionCreated_refused now1 now2 s d err :
  result (StripeService.handleSubscriptionCreated now1 s d) = Throw err ->
  StripeService.handleSubscriptionCreated now2 s d
  = StripeService.handleSubscriptionCreated now1 s d.
Proof.
  unfold StripeService.handleSubscriptionCreated.
  destruct (negb (truthy _)); [reflexivity |].
  destruct (Subscription.items_data s) as [|item0 rest]; [reflexivity |].
  apply execute_refused. intros e. now apply insert_subscription_refused.
Qed.

Lemma handleInvoicePaymentSucceeded_twice now1 now2 i d :
  truthy (StripeService.invoice_userId i) = true ->
  let o1 := StripeService.handleInvoicePaymentSucceeded now1 i d in
  result o1 = Ok tt ->
  StripeService.handleInvoicePaymentSucceeded now2 i (db_after o1)
  = {| result := Throw (SQLITE_CONSTRAINT "UNIQUE");
       db_after := db_after o1; logged := [] |}.
Proof.
  unfold StripeService.handleInvoicePaymentSucceeded. intros ->. cbn [negb].
  apply execute_twice. intros d1. now apply insert_payment_twice.
Qed.

Lemma handleInvoicePaymentSucceeded_refused now1 now2 i d err :
  result (StripeService.handleInvoicePaymentSucceeded now1 i d) = Throw err ->
  StripeService.handleInvoicePaymentSucceeded now2 i d
  = StripeService.handleInvoicePaymentSucceeded now1 i d.
Proof.
  unfold StripeService.handleInvoicePaymentSucceeded.
  destruct (negb (truthy _)); [reflexivity |].
  apply execute_refused. intros e. now apply insert_payment_refused.
Qed.

Lemma update_update key (f1 f2 : subscriptions.row -> subscriptions.row) d :
  (forall r, subscriptions.id (f1 r) = subscriptions.id r) ->
  (forall r, f2 (f1 r) = f2 r) ->
  update_subscriptions_where_id key f2 (update_subscriptions_where_id key f1 d)
  = update_subscriptions_where_id key f2 d.
Proof.
  intros Hid Hf. unfold update_subscriptions_where_id.
  cbn [users subscriptions_ payments_]. f_equal.
  rewrite map_map. apply map_ext. intros r.
  destruct (String.eqb (subscriptions.id r) key) eqn:E.
  - rewrite Hid, E. apply Hf.
  - now rewrite E.
Qed.

Lemma same_but_stamps_refl r : same_but_stamps r r.
Proof. unfold same_but_stamps. repeat split. Qed.

Lemma Forall2_map_both {A B} (R : B -> B -> Prop) (g h : A -> B) (l : list A) :
  (forall x, R (g x) (h x)) -> Forall2 R (map g l) (map h l).
Proof.
  intros HR. induction l as [|x l IH]; cbn [map]; constructor; auto.
Qed.

(** The database a dispatch leaves behind, case by case. *)
Lemma dispatch_db now event d :
  db_after (dispatch now event d) =
    match event with
    | customer_subscription_created _ s =>
        db_after (StripeService.handleSubscriptionCreated now s d)
    | customer_subscription_updated _ s =>
        update_subscriptions_where_id (Subscription.id s)
          (StripeService.set_updated now s) d
    | customer_subscription_deleted _ s =>
        update_subscriptions_where_id (Subscription.id s)
          (StripeService.set_deleted now) d
    | invoice_payment_succeeded _ i =>
        db_after (StripeService.handleInvoicePaymentSucceeded now i d)
    | _ => d
    end.
Proof.
  destruct event; cbn [dispatch]; rewrite ?db_after_then_log; reflexivity.
Qed.

Lemma update_update_rel (R : subscriptions.row -> subscriptions.row -> Prop)
    key (f1 f2 : subscriptions.row -> subscriptions.row) d :
  (forall r, R r r) ->
  (forall r, subscriptions.id (f1 r) = subscriptions.id r) ->
  (forall r, R (f1 r) (f2 (f1 r))) ->
  Forall2 R
    (subscriptions_ (update_subscriptions_where_id key f1 d))
    (subscriptions_
       (update_subscriptions_where_id key f2
          (update_subscriptions_where_id key f1 d))).
Proof.
  intros Hrefl Hid Hf.
  cbn [subscriptions_ update_subscriptions_where_id]. rewrite map_map.
  apply Forall2_map_both. intros r.
  destruct (String.eqb (subscriptions.id r) key) eqn:E.
  - rewrite Hid, E. apply Hf.
  - rewrite E. apply Hrefl.
Qed.

Lemma same_but_updatedAt_refl r : same_but_updatedAt r r.
Proof. unfold same_but_updatedAt. repeat split. Qed.

(** The second delivery of an event that inserts a row. *)
Lemma dispatch_insert_again now1 now2 event d :
  event_type event = "customer.subscription.created" \/
  (exists id invoice,
     event = invoice_payment_succeeded id invoice /\
     truthy (StripeService.invoice_userId invoice) = true) ->
  let o1 := dispatch now1 event d in
  (forall u, result o1 = Ok u ->
     dispatch now2 event (db_after o1)
     = {| result := Throw (SQLITE_CONSTRAINT "UNIQUE");
          db_after := db_after o1; logged := [] |}) /\
  (forall err, result o1 = Throw err -> dispatch now2 event d = o1).
Proof.
  intros Hins.
  assert (Hcase :
    (exists i s, event = customer_subscription_created i s) \/
    (exists i inv, event = invoice_payment_succeeded i inv /\
       truthy (StripeService.invoice_userId inv) = true)).
  { destruct Hins as [Hc | (i & inv & He & Hu)]; [left | right; eauto].
    destruct event as [i s|i s|i s|i inv|i inv|i s|i t Ht ob];
      cbn [event_type] in Hc; try discriminate Hc; [eauto |].
    exfalso. clear -Hc Ht. subst t. discriminate Ht. }
  clear Hins.
  destruct Hcase as [(i & s & ->) | (i & inv & -> & Hu)]; cbn zeta;
    cbn [dispatch]; rewrite db_after_then_log, result_then_log; split.
  - intros [] H. unfold bind.
    rewrite (handleSubscriptionCreated_twice now1 now2 s d H). reflexivity.
  - intros err H. unfold bind.
    now rewrite (handleSubscriptionCreated_refused now1 now2 s d err H).
  - intros [] H. unfold bind.
    rewrite (handleInvoicePaymentSucceeded_twice now1 now2 inv d Hu H).
    reflexivity.
  - intros err H. unfold bind.
    now rewrite (handleInvoicePaymentSucceeded_refused now1 now2 inv d err H).
Qed.

(** The records after the second delivery of an event that updates a row. *)
Lemma dispatch_update_again now1 now2 event d :
  let d1 := db_after (dispatch now1 event d) in
  let d2 := db_after (dispatch now2 event d1) in
  (event_type event <> "customer.subscription.updated" ->
   event_type event <> "customer.subscription.deleted" -> d2 = d1) /\
  (event_type event = "customer.subscription.updated" ->
   same_records_but_updatedAt d1 d2 /\
   d2 = db_after (dispatch now2 event d)) /\
  (event_type event = "customer.subscription.deleted" ->
   same_records_but_stamps d1 d2 /\
   d2 = db_after (dispatch now2 event d)) /\
  (now2 = now1 -> d2 = d1).
Proof.
  cbn zeta.
  destruct event as [i s|i s|i s|i inv|i inv|i s|i t Ht ob].
  - destruct (dispatch_insert_again now1 now2
                (customer_subscription_created i s) d (or_introl eq_refl))
      as [Hok Herr]. cbn zeta in Hok, Herr.
    assert (Hdb : db_after (dispatch now2 (customer_subscription_created i s)
                    (db_after (dispatch now1 (customer_subscription_created i s) d)))
                  = db_after (dispatch now1 (customer_subscription_created i s) d)).
    { destruct (result (dispatch now1 (customer_subscription_created i s) d))
        as [u|err] eqn:E.
      - now rewrite (Hok u eq_refl).
      - destruct (dispatch_throw _ _ _ _ E) as [Hd _]. rewrite Hd.
        now rewrite (Herr err eq_refl). }
    cbn [event_type]. repeat split; try discriminate; auto.
  - rewrite !dispatch_db. cbn [event_type]. repeat split; try discriminate.
    + congruence.
    + apply update_update_rel; intros r;
        [apply same_but_updatedAt_refl | reflexivity
        | unfold same_but_updatedAt; repeat split].
    + now apply update_update.
    + intros ->. now apply update_update.
  - rewrite !dispatch_db. cbn [event_type]. repeat split; try discriminate.
    + congruence.
    + apply update_update_rel; intros r;
        [apply same_but_stamps_refl | reflexivity
        | unfold same_but_stamps; repeat split].
    + now apply update_update.
    + intros ->. now apply update_update.
  - rewrite !dispatch_db. cbn [event_type].
    assert (Hdb : db_after (StripeService.handleInvoicePaymentSucceeded now2 inv
                    (db_after (StripeService.handleInvoicePaymentSucceeded now1 inv d)))
                  = db_after (StripeService.handleInvoicePaymentSucceeded now1 inv d)).
    { destruct (truthy (StripeService.invoice_userId inv)) eqn:Hu.
      - destruct (result (StripeService.handleInvoicePaymentSucceeded now1 inv d))
          as [[]|err] eqn:E.
        + now rewrite (handleInvoicePaymentSucceeded_twice now1 now2 inv d Hu E).
        + rewrite (handleInvoicePaymentSucceeded_throw _ _ _ _ E).
          rewrite (handleInvoicePaymentSucceeded_refused now1 now2 inv d err E).
          apply (handleInvoicePaymentSucceeded_throw _ _ _ _ E).
      - unfold StripeService.handleInvoicePaymentSucceeded. rewrite Hu.
        reflexivity. }
    repeat split; try discriminate; auto.
  - rewrite !dispatch_db. cbn [event_type].
    repeat split; try discriminate; auto.
  - rewrite !dispatch_db. cbn [event_type].
    repeat split; try discriminate; auto.
  - rewrite !dispatch_db. cbn [event_type].
    assert (Hup : t <> "customer.subscription.updated")
      by (intros Hc; clear -Hc Ht; subst t; discriminate Ht).
    assert (Hdel : t <> "customer.subscription.deleted")
      by (intros Hc; clear -Hc Ht; subst t; discriminate Ht).
    repeat split; auto; contradiction.
Qed.

(** C1, as the code has it.  Delivering a verified event a second time
    leaves the subscriptions and payments records as the first delivery
    left them, except for the columns stamped by the clock:
    [customer.subscription.updated] stamps [updatedAt] again, and
    [customer.subscription.deleted] stamps [updatedAt] and [canceledAt]
    again.  For these two types the state is the one a single delivery
    at the later instant gives, hence the same when the clock reads the
    same; for every other type the state is exactly the same.  The
    inserts are not upserts.  For a [customer.subscription.created]
    event, or an [invoice.payment_succeeded] event that carries a userId:
    when the first delivery was answered [{received: true}], the row is
    there and the second delivery is refused by the primary key and
    answered [{received: true, error: 'Processing failed'}]; when the
    first delivery was itself refused, the second is refused with the
    same error, and the records are still those before the first. *)
Theorem redelivery_changes_only_stamps
    new_Stripe now1 now2 request env event d :
  verified new_Stripe request env event ->
  let once := handleStripeWebhook new_Stripe now1 request env d in
  let twice := handleStripeWebhook new_Stripe now2 request env (db_after once) in
  let later := handleStripeWebhook new_Stripe now2 request env d in
  let answer fields :=
    Ok {| status := 200;
          headers := [("Content-Type", "application/json")];
          body := JsonBody (JObject fields) |} in
  let processing :=
    {| logger := "StripeWebhook"; level := Level.info;
       message := "Processing Stripe webhook event";
       data := [("type", event_type event); ("id", event_id event)] |} in
  let failure err :=
    {| logger := "StripeWebhook"; level := Level.error;
       message := "Error processing webhook event";
       data := [("type", event_type event); ("id", event_id event);
                ("error", exn_message err)] |} in
  (event_type event <> "customer.subscription.updated" ->
   event_type event <> "customer.subscription.deleted" ->
   db_after twice = db_after once) /\
  (event_type event = "customer.subscription.updated" ->
   same_records_but_updatedAt (db_after once) (db_after twice) /\
   db_after twice = db_after later) /\
  (event_type event = "customer.subscription.deleted" ->
   same_records_but_stamps (db_after once) (db_after twice) /\
   db_after twice = db_after later) /\
  (now2 = now1 -> db_after twice = db_after once) /\
  (event_type event = "customer.subscription.created" \/
   (exists id invoice,
      event = invoice_payment_succeeded id invoice /\
      truthy (StripeService.invoice_userId invoice) = true) ->
   (result once = answer [("received", JBool true)] ->
    result twice = answer [("received", JBool true);
                           ("error", JString "Processing failed")] /\
    logged twice = [processing; failure (SQLITE_CONSTRAINT "UNIQUE")]) /\
   (result once = answer [("received", JBool true);
                          ("error", JString "Processing failed")] ->
    exists err,
      logged once = [processing; failure err] /\
      db_after once = d /\
      result twice = result once /\
      logged twice = [processing; failure err])).
Proof.
  intros Hv once twice later answer processing failure.
  subst once twice later.
  destruct (dispatch_update_again now1 now2 event d)
    as (Hsame & Hupd & Hdel & Hclock). cbn zeta in *.
  rewrite !(handleStripeWebhook_db _ _ _ _ _ _ Hv).
  repeat (split; [assumption |]).
  intros Hins.
  destruct (dispatch_insert_again now1 now2 event d Hins) as [Hok Herr].
  cbn zeta in Hok, Herr.
  rewrite !(handleStripeWebhook_verified _ _ _ _ _ _ Hv). cbn zeta.
  destruct (result (dispatch now1 event d)) as [u|err] eqn:E;
    cbn [result db_after logged].
  - split; [intros _ | discriminate].
    rewrite (Hok u eq_refl). cbn [result db_after logged]. split; reflexivity.
  - split; [discriminate | intros _].
    destruct (dispatch_throw _ _ _ _ E) as [Hd Hl].
    exists err. rewrite Hd, (Herr err eq_refl), E, Hl.
    cbn [result db_after logged]. repeat split; reflexivity.
Qed.

Lemma redelivery_changes_only_stamps_witness :
  let event := customer_subscription_created "evt_1" Sample.subscription in
  let once := handleStripeWebhook (Sample.provider event)
                (new_Date 1700000000500) Sample.signed_request Sample.env
                Sample.db0 in
  let twice := handleStripeWebhook (Sample.provider event)
                 (new_Date 1700000060500) Sample.signed_request Sample.env
                 (db_after once) in
  let later := handleStripeWebhook (Sample.provider event)
                 (new_Date 1700000060500) Sample.signed_request Sample.env
                 Sample.db0 in
  let answer fields :=
    Ok {| status := 200;
          headers := [("Content-Type", "application/json")];
          body := JsonBody (JObject fields) |} in
  let processing :=
    {| logger := "StripeWebhook"; level := Level.info;
       message := "Processing Stripe webhook event";
       data := [("type", "customer.subscription.created"); ("id", "evt_1")] |} in
  let failure err :=
    {| logger := "StripeWebhook"; level := Level.error;
       message := "Error processing webhook event";
       data := [("type", "customer.subscription.created"); ("id", "evt_1");
                ("error", exn_message err)] |} in
  (event_type event <> "customer.subscription.updated" ->
   event_type event <> "customer.subscription.deleted" ->
   db_after twice = db_after once) /\
  (event_type event = "customer.subscription.updated" ->
   same_records_but_updatedAt (db_after once) (db_after twice) /\
   db_after twice = db_after later) /\
  (event_type event = "customer.subscription.deleted" ->
   same_records_but_stamps (db_after once) (db_after twice) /\
   db_after twice = db_after later) /\
  (new_Date 1700000060500 = new_Date 1700000000500 ->
   db_after twice = db_after once) /\
  (event_type event = "customer.subscription.created" \/
   (exists id invoice,
      event = invoice_payment_succeeded id invoice /\
      truthy (StripeService.invoice_userId invoice) = true) ->
   (result once = answer [("received", JBool true)] ->
    result twice = answer [("received", JBool true);
                           ("error", JString "Processing failed")] /\
    logged twice = [processing; failure (SQLITE_CONSTRAINT "UNIQUE")]) /\
   (result once = answer [("received", JBool true);
                          ("error", JString "Processing failed")] ->
    exists err,
      logged once = [processing; failure err] /\
      db_after once = Sample.db0 /\
      result twice = result once /\
      logged twice = [processing; failure err])).
Proof.
  intros event.
  apply (redelivery_changes_only_stamps (Sample.provider event)
           (new_Date 1700000000500) (new_Date 1700000060500)
           Sample.signed_request Sample.env event Sample.db0).
  apply Sample_verified.
Defined.

(** C1 as stated fails: a [customer.subscription.deleted] event delivered
    at two instants leaves another state than delivered once; the second
    delivery moves [canceledAt] to the later instant. *)
Lemma redelivered_deletion_moves_canceledAt :
  let event := customer_subscription_deleted "evt_2" Sample.subscription in
  let once := handleStripeWebhook (Sample.provider event)
                (new_Date 1700000000500) Sample.signed_request Sample.env
                Sample.db1 in
  let twice := handleStripeWebhook (Sample.provider event)
                 (new_Date 1700000060500) Sample.signed_request Sample.env
                 (db_after once) in
  result once = Ok (json_response received 200) /\
  result twice = Ok (json_response received 200) /\
  map subscriptions.canceledAt (subscriptions_ (db_after once))
    = [Some (new_Date 1700000000500)] /\
  map subscriptions.canceledAt (subscriptions_ (db_after twice))
    = [Some (new_Date 1700000060500)] /\
  db_after twice <> db_after once.
Proof.
  repeat split. discriminate.
Qed.

(** * Further properties of the code *)

(** *** The webhook handler as a whole *)

(** Where the handler can leave the database: where it found it, or where
    the dispatch of the verified event left it. *)
Lemma handleStripeWebhook_cases new_Stripe now request env d :
  let o := handleStripeWebhook new_Stripe now request env d in
  (db_after o = d /\
   exists response,
     result o = Ok response /\
     (status response = 400 \/ status response = 500)) \/
  (exists event,
     verified new_Stripe request env event /\
     db_after o = db_after (dispatch now event d) /\
     result o
     = Ok (json_response
             (match result (dispatch now event d) with
              | Ok _ => received
              | Throw _ => received_with_error
              end) 200)).
Proof.
  cbn zeta.
  destruct (text request) as [body|err] eqn:Htext.
  - destruct (truthy (stripe_signature request)) eqn:Hsig.
    + destruct (stripe_signature request) as [signature|] eqn:Hs;
        [| discriminate Hsig].
      apply truthy_Some_iff in Hsig.
      destruct (webhooks_constructEvent (new_Stripe (STRIPE_SECRET_KEY env))
                  body signature (STRIPE_WEBHOOK_SECRET env))
        as [event|err] eqn:Hev.
      * right. exists event.
        assert (Hv : verified new_Stripe request env event)
          by (exists body, signature; auto).
        split; [exact Hv |]. split.
        -- now apply handleStripeWebhook_db.
        -- now apply handleStripeWebhook_result.
      * left.
        rewrite (handleStripeWebhook_invalid _ _ _ _ _ _ _ _ Htext Hs Hsig Hev).
        split; [reflexivity |]. eexists. split; [reflexivity |]. now left.
    + left. rewrite (handleStripeWebhook_missing _ _ _ _ _ _ Htext Hsig).
      split; [reflexivity |]. eexists. split; [reflexivity |]. now left.
  - left. destruct request as [tx sg]. cbn in Htext. subst tx.
    unfold handleStripeWebhook.
    cbv [try_catch bind lift result db_after logged text logger_ write_log ret].
    split; [reflexivity |]. eexists. split; [reflexivity |]. now right.
Qed.

(** X1.  [handleStripeWebhook] never lets an exception escape: it always
    answers, with status 200, 400 or 500.  It writes only on its success
    path: whenever the database has changed, the answer is the plain
    [{received: true}] with status 200. *)
Theorem webhook_always_answers new_Stripe now request env d :
  let o := handleStripeWebhook new_Stripe now request env d in
  exists response,
    result o = Ok response /\
    (status response = 200 \/ status response = 400 \/ status response = 500) /\
    (db_after o <> d -> response = json_response received 200).
Proof.
  cbn zeta.
  destruct (handleStripeWebhook_cases new_Stripe now request env d)
    as [[Hdb (response & Hr & Hs)] | (event & Hv & Hdb & Hr)]; cbn zeta in *.
  - exists response. split; [exact Hr |]. split; [tauto |]. congruence.
  - eexists. split; [exact Hr |]. split; [now left |].
    rewrite Hdb. intros Hne.
    destruct (result (dispatch now event d)) as [v|err] eqn:E; [reflexivity |].
    destruct (dispatch_throw _ _ _ _ E) as [Hd _]. congruence.
Qed.

Lemma webhook_always_answers_witness :
  let o := handleStripeWebhook
             (Sample.provider
                (customer_subscription_created "evt_7"
                   SampleApi.trialing_subscription))
             (new_Date 1700000000500) Sample.signed_request Sample.env
             SampleApi.db2 in
  exists response,
    result o = Ok response /\
    (status response = 200 \/ status response = 400 \/ status response = 500) /\
    (db_after o <> SampleApi.db2 -> response = json_response received 200).
Proof.
  apply (webhook_always_answers
           (Sample.provider
              (customer_subscription_created "evt_7"
                 SampleApi.trialing_subscription))
           (new_Date 1700000000500) Sample.signed_request Sample.env
           SampleApi.db2).
Defined.

(** *** What the writes keep *)

Lemma grows_from_refl d : grows_from d d.
Proof.
  repeat split; exists []; now rewrite app_nil_r.
Qed.

Lemma execute_db (stmt : DB -> Result DB) (d : DB) :
  db_after (execute stmt d) = d \/ stmt d = Ok (db_after (execute stmt d)).
Proof. unfold execute. destruct (stmt d); [right | left]; reflexivity. Qed.

Lemma update_keys key (f : subscriptions.row -> subscriptions.row) d :
  (forall r, subscriptions.id (f r) = subscriptions.id r) ->
  (forall r, subscriptions.userId (f r) = subscriptions.userId r) ->
  map (fun r => (subscriptions.id r, subscriptions.userId r))
      (subscriptions_ (update_subscriptions_where_id key f d))
  = map (fun r => (subscriptions.id r, subscriptions.userId r))
        (subscriptions_ d).
Proof.
  intros Hid Hu. cbn [subscriptions_ update_subscriptions_where_id].
  rewrite map_map. apply map_ext. intros r.
  destruct (String.eqb (subscriptions.id r) key); [| reflexivity].
  now rewrite Hid, Hu.
Qed.

Lemma update_grows key (f : subscriptions.row -> subscriptions.row) d :
  (forall r, subscriptions.id (f r) = subscriptions.id r) ->
  (forall r, subscriptions.userId (f r) = subscriptions.userId r) ->
  grows_from d (update_subscriptions_where_id key f d).
Proof.
  intros Hid Hu. split; [reflexivity |]. split.
  - exists []. now rewrite app_nil_r.
  - exists []. rewrite app_nil_r. now apply update_keys.
Qed.

Lemma insert_subscription_grows r d d' :
  insert_subscription r d = Ok d' -> grows_from d d'.
Proof.
  intros H. apply insert_subscription_Ok in H as (Hu & Hs & Hp).
  split; [exact Hu |]. split.
  - exists []. now rewrite app_nil_r.
  - eexists. rewrite Hs, List.map_app. reflexivity.
Qed.

Lemma insert_payment_grows r d d' :
  insert_payment r d = Ok d' -> grows_from d d'.
Proof.
  intros H. apply insert_payment_Ok in H as (Hu & Hs & Hp).
  split; [exact Hu |]. split.
  - eexists. exact Hp.
  - exists []. now rewrite app_nil_r, Hs.
Qed.

Lemma dispatch_grows now event d : grows_from d (db_after (dispatch now event d)).
Proof.
  rewrite dispatch_db.
  destruct event as [i s|i s|i s|i inv|i inv|i s|i t Ht ob];
    try apply grows_from_refl; try (apply update_grows; reflexivity).
  - unfold StripeService.handleSubscriptionCreated.
    destruct (negb (truthy _)); [apply grows_from_refl |].
    destruct (Subscription.items_data s); [apply grows_from_refl |].
    destruct (execute_db
                (insert_subscription
                   (StripeService.newSub now s
                      (default "" (Subscription.metadata s !! "userId")) t)) d)
      as [E | H]; [rewrite E; apply grows_from_refl
                    | eapply insert_subscription_grows, H].
  - unfold StripeService.handleInvoicePaymentSucceeded.
    destruct (negb (truthy _)); [apply grows_from_refl |].
    destruct (execute_db
                (insert_payment
                   (StripeService.newPayment now inv
                      (default "" (StripeService.invoice_userId inv)))) d)
      as [E | H]; [rewrite E; apply grows_from_refl
                    | eapply insert_payment_grows, H].
Qed.

(** X2.  No webhook request, whatever it carries, removes anything: the
    users are the same, the payments recorded before are still there,
    unchanged and in the same order (payments are only appended), and
    every subscription row is still there with its id and its owner. *)
Theorem webhook_never_removes new_Stripe now request env d :
  grows_from d (db_after (handleStripeWebhook new_Stripe now request env d)).
Proof.
  destruct (handleStripeWebhook_cases new_Stripe now request env d)
    as [[Hdb _] | (event & _ & Hdb & _)]; cbn zeta in *; rewrite Hdb.
  - apply grows_from_refl.
  - apply dispatch_grows.
Qed.

Lemma has_key_false_iff (k : string) (keys : list string) :
  has_key k keys = false <-> ~ In k keys.
Proof.
  rewrite <- has_key_true_iff. destruct (has_key k keys); split; congruence.
Qed.

(** *** The cancel and reactivate endpoints, step by step *)

Lemma endpoint_cancel_run base new_Stripe now env routeContext d :
  SubscriptionEndpoints.cancelSubscription base new_Stripe now env routeContext d
  = match user routeContext with
    | None =>
        {| result := Ok (createErrorResponse base "Unauthorized" 401);
           db_after := d; logged := [] |}
    | Some u =>
        match select_subscription_by_user_and_status (user_id u) "active" d with
        | None =>
            {| result :=
                 Ok (createErrorResponse base "No active subscription found" 404);
               db_after := d; logged := [] |}
        | Some sub =>
            match subscriptions_update
                    (core (new_Stripe (STRIPE_SECRET_KEY env)))
                    (subscriptions.id sub) true with
            | Ok _ =>
                {| result :=
                     Ok (createSuccessResponse base
                           (JObject
                              [("message",
                                JString "Subscription will be canceled at the end of the billing period")]));
                   db_after :=
                     update_subscriptions_where_id (subscriptions.id sub)
                       (StripeService.set_cancelAtPeriodEnd now true) d;
                   logged := [] |}
            | Throw err =>
                {| result := Ok (handleError base err "cancel subscription");
                   db_after := d; logged := [] |}
            end
        end
    end.
Proof.
  unfold SubscriptionEndpoints.cancelSubscription,
    StripeService.cancelSubscription, StripeService.getUserSubscription.
  cbv [try_catch bind lift query execute ret result db_after logged].
  destruct (user routeContext) as [u|]; [| reflexivity].
  destruct (select_subscription_by_user_and_status (user_id u) "active" d)
    as [sub|]; [| reflexivity].
  destruct (subscriptions_update _ _ true); reflexivity.
Qed.

Lemma endpoint_reactivate_run base new_Stripe now env routeContext d :
  SubscriptionEndpoints.reactivateSubscription base new_Stripe now env
    routeContext d
  = match user routeContext with
    | None =>
        {| result := Ok (createErrorResponse base "Unauthorized" 401);
           db_after := d; logged := [] |}
    | Some u =>
        match select_subscription_by_user_and_status (user_id u) "active" d with
        | None =>
            {| result :=
                 Ok (createErrorResponse base "No active subscription found" 404);
               db_after := d; logged := [] |}
        | Some sub =>
            match subscriptions_update
                    (core (new_Stripe (STRIPE_SECRET_KEY env)))
                    (subscriptions.id sub) false with
            | Ok _ =>
                {| result :=
                     Ok (createSuccessResponse base
                           (JObject
                              [("message",
                                JString "Subscription reactivated successfully")]));
                   db_after :=
                     update_subscriptions_where_id (subscriptions.id sub)
                       (StripeService.set_cancelAtPeriodEnd now false) d;
                   logged := [] |}
            | Throw err =>
                {| result := Ok (handleError base err "reactivate subscription");
                   db_after := d; logged := [] |}
            end
        end
    end.
Proof.
  unfold SubscriptionEndpoints.reactivateSubscription,
    StripeService.reactivateSubscription, StripeService.getUserSubscription.
  cbv [try_catch bind lift query execute ret result db_after logged].
  destruct (user routeContext) as [u|]; [| reflexivity].
  destruct (select_subscription_by_user_and_status (user_id u) "active" d)
    as [sub|]; [| reflexivity].
  destruct (subscriptions_update _ _ false); reflexivity.
Qed.

Lemma endpoint_portal_run base new_Stripe url env routeContext d :
  SubscriptionEndpoints.createPortalSession base new_Stripe url env routeContext d
  = match user routeContext with
    | None =>
        {| result := Ok (createErrorResponse base "Unauthorized" 401);
           db_after := d; logged := [] |}
    | Some u =>
        match select_subscription_by_user_and_status (user_id u) "active" d with
        | None =>
            {| result :=
                 Ok (createErrorResponse base "No active subscription found" 404);
               db_after := d; logged := [] |}
        | Some sub =>
            match billingPortal_sessions_create
                    (new_Stripe (STRIPE_SECRET_KEY env))
                    {| PortalSessionCreateParams.customer :=
                         subscriptions.stripeCustomerId sub;
                       PortalSessionCreateParams.return_url :=
                         URL.protocol url ++ "//" ++ URL.host url ++ "/billing" |}
            with
            | Ok session =>
                {| result :=
                     Ok (createSuccessResponse base
                           (JObject [("url", JString (PortalSession.url session))]));
                   db_after := d; logged := [] |}
            | Throw err =>
                {| result := Ok (handleError base err "create portal session");
                   db_after := d; logged := [] |}
            end
        end
    end.
Proof.
  unfold SubscriptionEndpoints.createPortalSession,
    StripeServiceSessions.createBillingPortalSession,
    StripeService.getUserSubscription.
  cbv [try_catch bind lift query execute ret result db_after logged].
  destruct (user routeContext) as [u|]; [| reflexivity].
  destruct (select_subscription_by_user_and_status (user_id u) "active" d)
    as [sub|]; [| reflexivity].
  destruct (billingPortal_sessions_create _ _); reflexivity.
Qed.

Lemma select_active_spec user d sub :
  select_subscription_by_user_and_status user "active" d = Some sub ->
  In sub (subscriptions_ d) /\
  subscriptions.userId sub = user /\
  subscriptions.status sub = "active".
Proof.
  unfold select_subscription_by_user_and_status. intros H.
  apply find_some in H as [Hin Hp]. apply andb_true_iff in Hp as [Hu Hs].
  apply String.eqb_eq in Hu, Hs. auto.
Qed.

Lemma select_active_none user d :
  select_subscription_by_user_and_status user "active" d = None <->
  forall r, In r (subscriptions_ d) ->
    subscriptions.userId r = user -> subscriptions.status r <> "active".
Proof.
  unfold select_subscription_by_user_and_status. split.
  - intros H r Hin Hu Hs. apply (find_none _ _ H) in Hin.
    rewrite Hu, Hs, !String.eqb_refl in Hin. discriminate.
  - intros H. destruct (find _ _) as [r|] eqn:E; [| reflexivity].
    apply find_some in E as [Hin Hp]. apply andb_true_iff in Hp as [Hu Hs].
    apply String.eqb_eq in Hu, Hs. exfalso. now apply (H r).
Qed.

Lemma SampleApi_db2_wf : db_wf SampleApi.db2.
Proof.
  unfold db_wf. cbn. split; [| split; [| split]].
  - apply (bool_decide_unpack _). reflexivity.
  - constructor.
  - intros r [<-|[<-|[]]]; cbn; auto.
  - intros p [].
Qed.

(** *** Access follows the status the provider reports *)

Lemma update_row_inv key (f : subscriptions.row -> subscriptions.row) d r' :
  (forall r, subscriptions.id (f r) = subscriptions.id r) ->
  In r' (subscriptions_ (update_subscriptions_where_id key f d)) ->
  subscriptions.id r' = key ->
  exists r, In r (subscriptions_ d) /\ r' = f r.
Proof.
  intros Hid Hin Hk. cbn [subscriptions_ update_subscriptions_where_id] in Hin.
  apply in_map_iff in Hin as (r & Hr & Hin). exists r. split; [exact Hin |].
  destruct (String.eqb_spec (subscriptions.id r) key) as [E|E]; [now subst r' |].
  subst r'. contradiction.
Qed.

Lemma update_unknown key (f : subscriptions.row -> subscriptions.row) d :
  ~ In key (map subscriptions.id (subscriptions_ d)) ->
  update_subscriptions_where_id key f d = d.
Proof.
  intros Hnot. destruct d as [us subs pays].
  unfold update_subscriptions_where_id. cbn [users subscriptions_ payments_] in *.
  f_equal. rewrite <- (map_id subs) at 2. apply map_ext_in. intros r Hin.
  destruct (String.eqb_spec (subscriptions.id r) key) as [E|E]; [| reflexivity].
  exfalso. apply Hnot. apply in_map_iff. eauto.
Qed.

Lemma find_exists {A} (p : A -> bool) (l : list A) x :
  In x l -> p x = true -> exists y, find p l = Some y.
Proof.
  intros Hin Hp. destruct (find p l) as [y|] eqn:E; [eauto |].
  apply (find_none _ _ E) in Hin. congruence.
Qed.

Lemma dispatch_updated_result now id s d :
  result (dispatch now (customer_subscription_updated id s) d) = Ok tt.
Proof. reflexivity. Qed.

Lemma dispatch_deleted_result now id s d :
  result (dispatch now (customer_subscription_deleted id s) d) = Ok tt.
Proof. reflexivity. Qed.

(** X4.  A verified [customer.subscription.deleted] event does not delete
    the row: every row with the event's id stays in the table with status
    ['canceled'], and from then on the active-subscription query returns
    that subscription for no user. *)
Theorem deleted_event_revokes new_Stripe now request env id s d :
  verified new_Stripe request env (customer_subscription_deleted id s) ->
  let o := handleStripeWebhook new_Stripe now request env d in
  result o = Ok (json_response received 200) /\
  map subscriptions.id (subscriptions_ (db_after o))
  = map subscriptions.id (subscriptions_ d) /\
  (forall r, In r (subscriptions_ (db_after o)) ->
     subscriptions.id r = Subscription.id s ->
     subscriptions.status r = "canceled") /\
  (forall user r,
     result (StripeService.getUserSubscription user (db_after o)) = Ok (Some r) ->
     subscriptions.id r <> Subscription.id s).
Proof.
  intros Hv o. subst o.
  rewrite (handleStripeWebhook_result _ _ _ _ _ _ Hv),
    (handleStripeWebhook_db _ _ _ _ _ _ Hv), dispatch_deleted_result, dispatch_db.
  assert (Hst : forall r,
            In r (subscriptions_
                    (update_subscriptions_where_id (Subscription.id s)
                       (StripeService.set_deleted now) d)) ->
            subscriptions.id r = Subscription.id s ->
            subscriptions.status r = "canceled").
  { intros r Hin Hid.
    destruct (update_row_inv _ (StripeService.set_deleted now) _ _
                (fun _ => eq_refl) Hin Hid) as (r0 & _ & ->).
    reflexivity. }
  split; [reflexivity |]. split; [| split; [exact Hst |]].
  - cbn [subscriptions_ update_subscriptions_where_id]. rewrite map_map.
    apply map_ext. intros r.
    destruct (String.eqb (subscriptions.id r) (Subscription.id s)); reflexivity.
  - intros user r [= Hr] Hid. apply select_active_spec in Hr as (Hin & _ & Hact).
    rewrite (Hst r Hin Hid) in Hact. discriminate.
Qed.

Lemma deleted_event_revokes_witness :
  let o := handleStripeWebhook
             (Sample.provider
                (customer_subscription_deleted "evt_2" Sample.subscription))
             (new_Date 1700000000500) Sample.signed_request Sample.env
             SampleApi.db2 in
  result o = Ok (json_response received 200) /\
  map subscriptions.id (subscriptions_ (db_after o))
  = map subscriptions.id (subscriptions_ SampleApi.db2) /\
  (forall r, In r (subscriptions_ (db_after o)) ->
     subscriptions.id r = Subscription.id Sample.subscription ->
     subscriptions.status r = "canceled") /\
  (forall user r,
     result (StripeService.getUserSubscription user (db_after o)) = Ok (Some r) ->
     subscriptions.id r <> Subscription.id Sample.subscription).
Proof.
  apply (deleted_event_revokes _ _ _ _ "evt_2" Sample.subscription).
  apply Sample_verified.
Defined.

(** X5.  An update or a deletion for a subscription the store does not
    hold is accepted in silence: no row changes, nothing is inserted, and
    the answer is the plain [{received: true}] with status 200, as for an
    event that was applied. *)
Theorem unknown_subscription_event_is_dropped new_Stripe now request env event d :
  verified new_Stripe request env event ->
  (exists id s,
     (event = customer_subscription_updated id s \/
      event = customer_subscription_deleted id s) /\
     ~ In (Subscription.id s) (map subscriptions.id (subscriptions_ d))) ->
  let o := handleStripeWebhook new_Stripe now request env d in
  result o = Ok (json_response received 200) /\
  db_after o = d /\
  Forall (fun entry => level entry = Level.info) (logged o).
Proof.
  intros Hv (id & s & Hev & Hnot) o. subst o.
  rewrite (handleStripeWebhook_verified _ _ _ _ _ _ Hv). cbn zeta.
  destruct Hev as [-> | ->]; cbn [result db_after logged dispatch];
    unfold bind, StripeService.handleSubscriptionUpdated,
      StripeService.handleSubscriptionDeleted, execute;
    cbn [result db_after logged logger_ write_log];
    rewrite (update_unknown _ _ _ Hnot);
    (split; [reflexivity |]); (split; [reflexivity |]);
    repeat constructor.
Qed.

Lemma unknown_subscription_event_is_dropped_witness :
  let event :=
    customer_subscription_updated "evt_5" SampleApi.unknown_subscription in
  let o := handleStripeWebhook (Sample.provider event)
             (new_Date 1700000000500) Sample.signed_request Sample.env
             SampleApi.db2 in
  result o = Ok (json_response received 200) /\
  db_after o = SampleApi.db2 /\
  Forall (fun entry => level entry = Level.info) (logged o).
Proof.
  intros event.
  apply (unknown_subscription_event_is_dropped (Sample.provider event)
           _ _ _ event).
  - apply Sample_verified.
  - exists "evt_5", SampleApi.unknown_subscription. split; [now left |].
    cbn. intros [H|[H|[]]]; discriminate H.
Defined.

(** X6.  A verified [customer.subscription.updated] event puts the
    event's status on every row with its id.  With any status other than
    ['active'] the active-subscription query no longer returns that
    subscription; with status ['active'] the owner of such a row has an
    active subscription afterwards. *)
Theorem updated_event_sets_access new_Stripe now request env id s d :
  verified new_Stripe request env (customer_subscription_updated id s) ->
  let o := handleStripeWebhook new_Stripe now request env d in
  result o = Ok (json_response received 200) /\
  (forall r, In r (subscriptions_ (db_after o)) ->
     subscriptions.id r = Subscription.id s ->
     subscriptions.status r = Subscription.status s) /\
  (Subscription.status s <> "active" ->
   forall user r,
     result (StripeService.getUserSubscription user (db_after o)) = Ok (Some r) ->
     subscriptions.id r <> Subscription.id s) /\
  (Subscription.status s = "active" ->
   forall r, In r (subscriptions_ d) ->
     subscriptions.id r = Subscription.id s ->
     result (StripeService.hasActiveSubscription (subscriptions.userId r)
               (db_after o)) = Ok true).
Proof.
  intros Hv o. subst o.
  rewrite (handleStripeWebhook_result _ _ _ _ _ _ Hv),
    (handleStripeWebhook_db _ _ _ _ _ _ Hv), dispatch_updated_result, dispatch_db.
  assert (Hst : forall r,
            In r (subscriptions_
                    (update_subscriptions_where_id (Subscription.id s)
                       (StripeService.set_updated now s) d)) ->
            subscriptions.id r = Subscription.id s ->
            subscriptions.status r = Subscription.status s).
  { intros r Hin Hid.
    destruct (update_row_inv _ (StripeService.set_updated now s) _ _
                (fun _ => eq_refl) Hin Hid) as (r0 & _ & ->).
    reflexivity. }
  split; [reflexivity |]. split; [exact Hst |]. split.
  - intros Hna user r [= Hr] Hid.
    apply select_active_spec in Hr as (Hin & _ & Hact).
    rewrite (Hst r Hin Hid) in Hact. contradiction.
  - intros Hact r Hin Hid.
    unfold StripeService.hasActiveSubscription, StripeService.getUserSubscription,
      bind, query, ret. cbn [result db_after logged].
    unfold select_subscription_by_user_and_status.
    destruct (find_exists
                (fun r0 => String.eqb (subscriptions.userId r0) (subscriptions.userId r)
                           && String.eqb (subscriptions.status r0) "active")
                (subscriptions_
                   (update_subscriptions_where_id (Subscription.id s)
                      (StripeService.set_updated now s) d))
                (StripeService.set_updated now s r)) as [y Hy].
    + cbn [subscriptions_ update_subscriptions_where_id].
      apply in_map_iff. exists r. split; [| exact Hin].
      rewrite Hid, String.eqb_refl. reflexivity.
    + cbn. rewrite Hact, !String.eqb_refl. reflexivity.
    + rewrite Hy. reflexivity.
Qed.

Lemma updated_event_sets_access_witness :
  let s := SampleApi.past_due_subscription in
  let o := handleStripeWebhook
             (Sample.provider (customer_subscription_updated "evt_6" s))
             (new_Date 1700000000500) Sample.signed_request Sample.env
             SampleApi.db2 in
  result o = Ok (json_response received 200) /\
  (forall r, In r (subscriptions_ (db_after o)) ->
     subscriptions.id r = Subscription.id s ->
     subscriptions.status r = Subscription.status s) /\
  (Subscription.status s <> "active" ->
   forall user r,
     result (StripeService.getUserSubscription user (db_after o)) = Ok (Some r) ->
     subscriptions.id r <> Subscription.id s) /\
  (Subscription.status s = "active" ->
   forall r, In r (subscriptions_ SampleApi.db2) ->
     subscriptions.id r = Subscription.id s ->
     result (StripeService.hasActiveSubscription (subscriptions.userId r)
               (db_after o)) = Ok true).
Proof.
  intros s.
  apply (updated_event_sets_access _ _ _ _ "evt_6" s).
  apply Sample_verified.
Defined.

(** *** Inserting and looking up *)

Lemma find_app_last {A} (p : A -> bool) (l : list A) (x : A) :
  find p (l ++ [x])
  = match find p l with
    | Some y => Some y
    | None => if p x then Some x else None
    end.
Proof.
  induction l as [|a l IH]; cbn [app find]; [reflexivity |].
  destruct (p a); [reflexivity | exact IH].
Qed.

Lemma received_is_not_the_error_body (v : Result unit) :
  Ok (json_response
        (match v with Ok _ => received | Throw _ => received_with_error end) 200)
  = Ok (json_response received 200) ->
  v = Ok tt.
Proof. destruct v as [[]|err]; [reflexivity | discriminate]. Qed.

Lemma created_Ok now s d :
  result (StripeService.handleSubscriptionCreated now s d) = Ok tt ->
  exists userId item0,
    Subscription.metadata s !! "userId" = Some userId /\
    userId <> "" /\
    subscriptions_ (db_after (StripeService.handleSubscriptionCreated now s d))
    = (subscriptions_ d ++ [StripeService.newSub now s userId item0])%list.
Proof.
  unfold StripeService.handleSubscriptionCreated.
  destruct (truthy (Subscription.metadata s !! "userId")) eqn:Hu;
    cbn [negb]; [| discriminate].
  destruct (Subscription.items_data s) as [|item0 rest]; [discriminate |].
  intros Hok. apply execute_Ok, insert_subscription_Ok in Hok as (_ & Hs & _).
  destruct (Subscription.metadata s !! "userId") as [userId|] eqn:Hm;
    [| discriminate].
  exists userId, item0. split; [reflexivity |].
  split; [now apply truthy_Some_iff |]. exact Hs.
Qed.

(** X7.  When a verified [customer.subscription.created] event is
    processed (the answer is the plain [{received: true}]), the new row
    counts as the user's subscription only if its status is ['active']:
    with that status the user named in the metadata has an active
    subscription afterwards; with any other status, ['trialing']
    included, [hasActiveSubscription] answers for every user what it
    answered before. *)
Theorem created_event_and_access new_Stripe now request env id s d :
  verified new_Stripe request env (customer_subscription_created id s) ->
  let o := handleStripeWebhook new_Stripe now request env d in
  result o = Ok (json_response received 200) ->
  exists userId,
    Subscription.metadata s !! "userId" = Some userId /\
    In (Subscription.id s) (map subscriptions.id (subscriptions_ (db_after o))) /\
    (Subscription.status s = "active" ->
     result (StripeService.hasActiveSubscription userId (db_after o)) = Ok true) /\
    (Subscription.status s <> "active" ->
     forall user,
       result (StripeService.hasActiveSubscription user (db_after o))
       = result (StripeService.hasActiveSubscription user d)).
Proof.
  intros Hv o. subst o.
  rewrite (handleStripeWebhook_result _ _ _ _ _ _ Hv),
    (handleStripeWebhook_db _ _ _ _ _ _ Hv), dispatch_db.
  intros Hr. apply received_is_not_the_error_body in Hr.
  cbn [dispatch] in Hr. rewrite result_then_log in Hr.
  destruct (created_Ok _ _ _ Hr) as (userId & item0 & Hm & Hne & Hs).
  exists userId. split; [exact Hm |].
  unfold StripeService.hasActiveSubscription, StripeService.getUserSubscription,
    bind, query, ret, select_subscription_by_user_and_status.
  cbn [result db_after logged]. rewrite Hs.
  split; [| split].
  - rewrite List.map_app. apply in_or_app. right. now left.
  - intros Hact. rewrite find_app_last.
    destruct (find _ (subscriptions_ d)); [reflexivity |].
    cbn [StripeService.newSub subscriptions.userId subscriptions.status].
    now rewrite Hact, !String.eqb_refl.
  - intros Hna user. rewrite find_app_last.
    destruct (find _ (subscriptions_ d)); [reflexivity |].
    cbn [StripeService.newSub subscriptions.userId subscriptions.status].
    destruct (String.eqb_spec (Subscription.status s) "active");
      [contradiction |].
    now rewrite andb_false_r.
Qed.

Lemma created_event_and_access_witness :
  let s := SampleApi.trialing_subscription in
  let o := handleStripeWebhook
             (Sample.provider (customer_subscription_created "evt_7" s))
             (new_Date 1700000000500) Sample.signed_request Sample.env
             SampleApi.db2 in
  exists userId,
    Subscription.metadata s !! "userId" = Some userId /\
    In (Subscription.id s) (map subscriptions.id (subscriptions_ (db_after o))) /\
    (Subscription.status s = "active" ->
     result (StripeService.hasActiveSubscription userId (db_after o)) = Ok true) /\
    (Subscription.status s <> "active" ->
     forall user,
       result (StripeService.hasActiveSubscription user (db_after o))
       = result (StripeService.hasActiveSubscription user SampleApi.db2)).
Proof.
  intros s.
  apply (created_event_and_access _ _ _ _ "evt_7" s).
  - apply Sample_verified.
  - reflexivity.
Defined.

(** The trial of the second sample user is stored and does not count. *)
Example trialing_sample :
  let o := handleStripeWebhook
             (Sample.provider
                (customer_subscription_created "evt_7"
                   SampleApi.trialing_subscription))
             (new_Date 1700000000500) Sample.signed_request Sample.env
             SampleApi.db2 in
  map subscriptions.status (subscriptions_ (db_after o))
    = ["active"; "past_due"; "trialing"] /\
  result (StripeService.hasActiveSubscription "user_2" (db_after o)) = Ok false.
Proof. split; reflexivity. Qed.

(** *** Events that arrive before what they refer to *)

Lemma insert_payment_unknown_subscription r d s :
  payments.subscriptionId r = Some s ->
  ~ In s (map subscriptions.id (subscriptions_ d)) ->
  exists err, insert_payment r d = Throw err.
Proof.
  intros Hs Hnot. apply has_key_false_iff in Hnot.
  unfold insert_payment. rewrite Hs, Hnot.
  destruct (payments.stripeCustomerId r); [| eauto].
  destruct (has_key (payments.id r) _); [eauto |].
  destruct (negb (has_key (payments.userId r) (users d))); cbn; eauto.
Qed.

Lemma insert_subscription_unknown_user r d :
  ~ In (subscriptions.userId r) (users d) ->
  exists err, insert_subscription r d = Throw err.
Proof.
  intros Hnot. apply has_key_false_iff in Hnot.
  unfold insert_subscription. rewrite Hnot.
  destruct (has_key (subscriptions.id r) _); cbn; eauto.
Qed.

(** X8.  Rows are inserted only for what the store already knows (the
    foreign keys of the migration).  A verified [invoice.payment_succeeded]
    event whose invoice names a subscription that is not in the store
    records no payment, and a verified [customer.subscription.created]
    event for a user id that is not in [users] records no subscription;
    either way the database is unchanged and the provider still gets
    status 200, with the error body. *)
Theorem insert_needs_its_references new_Stripe now request env d :
  (forall id invoice subscription,
     verified new_Stripe request env (invoice_payment_succeeded id invoice) ->
     truthy (StripeService.invoice_userId invoice) = true ->
     Invoice.subscription invoice = Some subscription ->
     subscription <> "" ->
     ~ In subscription (map subscriptions.id (subscriptions_ d)) ->
     let o := handleStripeWebhook new_Stripe now request env d in
     result o = Ok (json_response received_with_error 200) /\ db_after o = d)
  /\
  (forall id s userId,
     verified new_Stripe request env (customer_subscription_created id s) ->
     Subscription.metadata s !! "userId" = Some userId ->
     ~ In userId (users d) ->
     let o := handleStripeWebhook new_Stripe now request env d in
     result o = Ok (json_response received_with_error 200) /\ db_after o = d).
Proof.
  split.
  - intros id invoice subscription Hv Hu Hsub Hne Hnot o. subst o.
    rewrite (handleStripeWebhook_result _ _ _ _ _ _ Hv),
      (handleStripeWebhook_db _ _ _ _ _ _ Hv).
    assert (Hthrow : exists err,
              result (dispatch now (invoice_payment_succeeded id invoice) d)
              = Throw err).
    { cbn [dispatch]. rewrite result_then_log.
      unfold StripeService.handleInvoicePaymentSucceeded. rewrite Hu.
      cbn [negb].
      destruct (insert_payment_unknown_subscription
                  (StripeService.newPayment now invoice
                     (default "" (StripeService.invoice_userId invoice)))
                  d subscription) as [err He].
      - cbn [StripeService.newPayment payments.subscriptionId].
        unfold js_or. rewrite Hsub.
        apply truthy_Some_iff in Hne. now rewrite Hne.
      - exact Hnot.
      - exists err. unfold execute. now rewrite He. }
    destruct Hthrow as [err He]. rewrite He. split; [reflexivity |].
    now apply (dispatch_throw _ _ _ _ He).
  - intros id s userId Hv Hm Hnot o. subst o.
    rewrite (handleStripeWebhook_result _ _ _ _ _ _ Hv),
      (handleStripeWebhook_db _ _ _ _ _ _ Hv).
    assert (Hthrow : exists err,
              result (dispatch now (customer_subscription_created id s) d)
              = Throw err).
    { cbn [dispatch]. rewrite result_then_log.
      unfold StripeService.handleSubscriptionCreated. rewrite Hm.
      destruct (negb (truthy (Some userId))); [cbn; eauto |].
      destruct (Subscription.items_data s) as [|item0 rest]; [cbn; eauto |].
      destruct (insert_subscription_unknown_user
                  (StripeService.newSub now s (default "" (Some userId)) item0) d)
        as [err He]; [exact Hnot |].
      exists err. unfold execute. now rewrite He. }
    destruct Hthrow as [err He]. rewrite He. split; [reflexivity |].
    now apply (dispatch_throw _ _ _ _ He).
Qed.

Lemma insert_needs_its_references_witness :
  (let o := handleStripeWebhook
              (Sample.provider
                 (invoice_payment_succeeded "evt_8" SampleApi.early_invoice))
              (new_Date 1700000000500) Sample.signed_request Sample.env
              SampleApi.db2 in
   result o = Ok (json_response received_with_error 200) /\
   db_after o = SampleApi.db2)
  /\
  (let o := handleStripeWebhook
              (Sample.provider
                 (customer_subscription_created "evt_9"
                    SampleApi.stranger_subscription))
              (new_Date 1700000000500) Sample.signed_request Sample.env
              SampleApi.db2 in
   result o = Ok (json_response received_with_error 200) /\
   db_after o = SampleApi.db2).
Proof.
  split.
  - apply (proj1 (insert_needs_its_references _ _ _ _ _)
             "evt_8" SampleApi.early_invoice "sub_404").
    + apply Sample_verified.
    + reflexivity.
    + reflexivity.
    + discriminate.
    + cbn. intros [H|[H|[]]]; discriminate H.
  - apply (proj2 (insert_needs_its_references _ _ _ _ _)
             "evt_9" SampleApi.stranger_subscription "user_9").
    + apply Sample_verified.
    + reflexivity.
    + cbn. intros [H|[H|[]]]; discriminate H.
Defined.

(** *** Cancelling and reactivating *)

(** X9.  Reactivating undoes a cancellation: when the provider accepts
    both calls, cancelling a subscription and then reactivating it leaves
    the database that reactivating alone would have left; the rows with
    that id end with [cancelAtPeriodEnd = false] and the later update
    stamp, every other column and every other row as before the two
    calls. *)
Theorem reactivate_undoes_cancel stripe now1 now2 subscriptionId d :
  subscriptions_update stripe subscriptionId true = Ok tt ->
  subscriptions_update stripe subscriptionId false = Ok tt ->
  let canceled :=
    db_after (StripeService.cancelSubscription stripe now1 subscriptionId d) in
  let restored :=
    db_after (StripeService.reactivateSubscription stripe now2 subscriptionId
                canceled) in
  restored
  = db_after (StripeService.reactivateSubscription stripe now2 subscriptionId d) /\
  Forall2 (fun r r' =>
             same_but_cancel_flag r r' /\
             (subscriptions.id r = subscriptionId ->
              subscriptions.cancelAtPeriodEnd r' = Some false /\
              subscriptions.updatedAt r' = Some now2) /\
             (subscriptions.id r <> subscriptionId -> r' = r))
          (subscriptions_ d) (subscriptions_ restored).
Proof.
  intros Hc Hr.
  unfold StripeService.cancelSubscription, StripeService.reactivateSubscription,
    bind, lift, execute.
  cbn [result db_after logged]. rewrite Hc, Hr. cbn [result db_after logged].
  rewrite update_update by reflexivity. split; [reflexivity |].
  cbn [subscriptions_ update_subscriptions_where_id].
  apply Forall2_map_self. intros r.
  destruct (String.eqb_spec (subscriptions.id r) subscriptionId) as [E|E].
  - split; [apply set_cancelAtPeriodEnd_same |]. split; [| contradiction].
    intros _. split; reflexivity.
  - split; [apply same_but_cancel_flag_refl |]. split; [contradiction |].
    reflexivity.
Qed.

Lemma reactivate_undoes_cancel_witness :
  let stripe := Sample.provider Sample.charge_succeeded "sk_test" in
  let canceled :=
    db_after (StripeService.cancelSubscription stripe
                (new_Date 1700000100000) "sub_1" SampleApi.db2) in
  let restored :=
    db_after (StripeService.reactivateSubscription stripe
                (new_Date 1700000200000) "sub_1" canceled) in
  restored
  = db_after (StripeService.reactivateSubscription stripe
                (new_Date 1700000200000) "sub_1" SampleApi.db2) /\
  Forall2 (fun r r' =>
             same_but_cancel_flag r r' /\
             (subscriptions.id r = "sub_1" ->
              subscriptions.cancelAtPeriodEnd r' = Some false /\
              subscriptions.updatedAt r' = Some (new_Date 1700000200000)) /\
             (subscriptions.id r <> "sub_1" -> r' = r))
          (subscriptions_ SampleApi.db2) (subscriptions_ restored).
Proof.
  intros stripe.
  apply (reactivate_undoes_cancel stripe (new_Date 1700000100000)
           (new_Date 1700000200000) "sub_1" SampleApi.db2); reflexivity.
Defined.

Lemma NoDup_map_inj {A B} (f : A -> B) (l : list A) a b :
  NoDup (map f l) -> In a l -> In b l -> f a = f b -> a = b.
Proof.
  induction l as [|x l IH]; cbn [map]; intros Hnd Ha Hb Hf; [destruct Ha |].
  apply NoDup_cons in Hnd as [Hx Hnd].
  destruct Ha as [<-|Ha], Hb as [<-|Hb]; auto.
  - exfalso. apply Hx. rewrite Hf. apply list_elem_of_In, in_map, Hb.
  - exfalso. apply Hx. rewrite <- Hf. apply list_elem_of_In, in_map, Ha.
Qed.

Lemma update_leaves_others flag now (sub : subscriptions.row) user d :
  NoDup (map subscriptions.id (subscriptions_ d)) ->
  In sub (subscriptions_ d) ->
  subscriptions.userId sub = user ->
  Forall2 (fun r r' =>
             same_but_cancel_flag r r' /\
             (subscriptions.userId r <> user -> r' = r))
          (subscriptions_ d)
          (subscriptions_
             (update_subscriptions_where_id (subscriptions.id sub)
                (StripeService.set_cancelAtPeriodEnd now flag) d)).
Proof.
  intros Hnd Hin Hu. cbn [subscriptions_ update_subscriptions_where_id].
  assert (H : forall l,
            (forall r, In r l -> In r (subscriptions_ d)) ->
            Forall2 (fun r r' =>
                       same_but_cancel_flag r r' /\
                       (subscriptions.userId r <> user -> r' = r))
                    l
                    (map (fun r => if String.eqb (subscriptions.id r)
                                        (subscriptions.id sub)
                                   then StripeService.set_cancelAtPeriodEnd
                                          now flag r
                                   else r) l)).
  { induction l as [|r l IH]; intros Hl; cbn [map]; constructor.
    - destruct (String.eqb_spec (subscriptions.id r) (subscriptions.id sub))
        as [E|E].
      + split; [apply set_cancelAtPeriodEnd_same |]. intros Hne. exfalso.
        apply Hne. rewrite <- Hu. f_equal.
        apply (NoDup_map_inj subscriptions.id (subscriptions_ d)); auto.
        apply Hl. now left.
      + split; [apply same_but_cancel_flag_refl | reflexivity].
    - apply IH. intros r0 Hr0. apply Hl. now right. }
  apply H. auto.
Qed.

Lemma Forall2_same_refl (P : subscriptions.row -> Prop) l :
  Forall2 (fun r r' => same_but_cancel_flag r r' /\ (P r -> r' = r)) l l.
Proof.
  induction l; constructor; auto. split; [apply same_but_cancel_flag_refl | auto].
Qed.

(** X10.  Through the cancel and the reactivate endpoint a user reaches
    only rows of their own: in a store with unique subscription ids, no
    row owned by another user changes, the rows that change do so in
    [cancelAtPeriodEnd] and [updatedAt] only, users and payments are the
    same, and without an authenticated user nothing changes at all.
    Neither endpoint lets an exception escape. *)
Theorem endpoints_touch_only_own_rows base new_Stripe now env routeContext d :
  NoDup (map subscriptions.id (subscriptions_ d)) ->
  let canceled :=
    SubscriptionEndpoints.cancelSubscription base new_Stripe now env
      routeContext d in
  let reactivated :=
    SubscriptionEndpoints.reactivateSubscription base new_Stripe now env
      routeContext d in
  forall o, o = canceled \/ o = reactivated ->
    (exists response, result o = Ok response) /\
    users (db_after o) = users d /\
    payments_ (db_after o) = payments_ d /\
    (user routeContext = None -> db_after o = d) /\
    Forall2 (fun r r' =>
               same_but_cancel_flag r r' /\
               (Some (subscriptions.userId r) <> option_map user_id (user routeContext) ->
                r' = r))
            (subscriptions_ d) (subscriptions_ (db_after o)).
Proof.
  intros Hnd canceled reactivated o Ho. subst canceled reactivated.
  rewrite endpoint_cancel_run, endpoint_reactivate_run in Ho.
  destruct (user routeContext) as [u|]; cbn [option_map].
  - destruct (select_subscription_by_user_and_status (user_id u) "active" d)
      as [sub|] eqn:Hsel.
    + apply select_active_spec in Hsel as (Hin & Hu & _).
      pose proof (update_leaves_others true now sub (user_id u) d Hnd Hin Hu)
        as Ht.
      pose proof (update_leaves_others false now sub (user_id u) d Hnd Hin Hu)
        as Hf.
      assert (Hgen : forall flag,
                Forall2 (fun r r' =>
                           same_but_cancel_flag r r' /\
                           (subscriptions.userId r <> user_id u -> r' = r))
                        (subscriptions_ d)
                        (subscriptions_
                           (update_subscriptions_where_id (subscriptions.id sub)
                              (StripeService.set_cancelAtPeriodEnd now flag) d)) ->
                Forall2 (fun r r' =>
                           same_but_cancel_flag r r' /\
                           (Some (subscriptions.userId r) <> Some (user_id u) ->
                            r' = r))
                        (subscriptions_ d)
                        (subscriptions_
                           (update_subscriptions_where_id (subscriptions.id sub)
                              (StripeService.set_cancelAtPeriodEnd now flag) d))).
      { intros flag H. eapply Forall2_impl; [exact H |].
        intros r r' [Hs Hr]. split; [exact Hs |]. intros Hne. apply Hr. congruence. }
      destruct Ho as [-> | ->].
      * destruct (subscriptions_update _ _ true); cbn [result db_after].
        -- split; [eauto |]. repeat split; [discriminate | now apply Hgen].
        -- split; [eauto |]. repeat split; auto. apply Forall2_same_refl.
      * destruct (subscriptions_update _ _ false); cbn [result db_after].
        -- split; [eauto |]. repeat split; [discriminate | now apply Hgen].
        -- split; [eauto |]. repeat split; auto. apply Forall2_same_refl.
    + destruct Ho as [-> | ->]; cbn [result db_after];
        (split; [eauto |]); repeat split; auto; apply Forall2_same_refl.
  - destruct Ho as [-> | ->]; cbn [result db_after];
      (split; [eauto |]); repeat split; auto; apply Forall2_same_refl.
Qed.

Lemma endpoints_touch_only_own_rows_witness :
  let o := SubscriptionEndpoints.cancelSubscription Sample.base SampleApi.api
             (new_Date 1700000100000) Sample.env
             {| user := Some SampleApi.user_1 |} SampleApi.db2 in
  (exists response, result o = Ok response) /\
  users (db_after o) = users SampleApi.db2 /\
  payments_ (db_after o) = payments_ SampleApi.db2 /\
  (Some SampleApi.user_1 = None -> db_after o = SampleApi.db2) /\
  Forall2 (fun r r' =>
             same_but_cancel_flag r r' /\
             (Some (subscriptions.userId r) <> Some "user_1" -> r' = r))
          (subscriptions_ SampleApi.db2) (subscriptions_ (db_after o)).
Proof.
  apply (endpoints_touch_only_own_rows Sample.base SampleApi.api
           (new_Date 1700000100000) Sample.env
           {| user := Some SampleApi.user_1 |} SampleApi.db2).
  - apply SampleApi_db2_wf.
  - now left.
Defined.

(** X11.  A user without a row of status ['active'] (none at all, or only
    past due, trialing or canceled ones) is turned away by the portal,
    the cancel and the reactivate endpoint alike: each answers the base
    controller's error response for "No active subscription found", 404,
    whatever the provider would have said, and writes nothing. *)
Theorem inactive_user_is_turned_away base new_Stripe now url env u d :
  (forall r, In r (subscriptions_ d) ->
     subscriptions.userId r = user_id u -> subscriptions.status r <> "active") ->
  let turned_away :=
    {| result := Ok (createErrorResponse base "No active subscription found" 404);
       db_after := d; logged := [] |} in
  SubscriptionEndpoints.createPortalSession base new_Stripe url env
    {| user := Some u |} d = turned_away /\
  SubscriptionEndpoints.cancelSubscription base new_Stripe now env
    {| user := Some u |} d = turned_away /\
  SubscriptionEndpoints.reactivateSubscription base new_Stripe now env
    {| user := Some u |} d = turned_away.
Proof.
  intros Hnone. apply select_active_none in Hnone.
  rewrite endpoint_portal_run, endpoint_cancel_run, endpoint_reactivate_run.
  cbn [user]. rewrite Hnone. repeat split.
Qed.

Lemma inactive_user_is_turned_away_witness :
  let turned_away :=
    {| result :=
         Ok (createErrorResponse Sample.base "No active subscription found" 404);
       db_after := SampleApi.db2; logged := [] |} in
  SubscriptionEndpoints.createPortalSession Sample.base SampleApi.api
    (URL.mk "https:" "app.example.com") Sample.env
    {| user := Some SampleApi.user_2 |} SampleApi.db2 = turned_away /\
  SubscriptionEndpoints.cancelSubscription Sample.base SampleApi.api
    (new_Date 1700000100000) Sample.env
    {| user := Some SampleApi.user_2 |} SampleApi.db2 = turned_away /\
  SubscriptionEndpoints.reactivateSubscription Sample.base SampleApi.api
    (new_Date 1700000100000) Sample.env
    {| user := Some SampleApi.user_2 |} SampleApi.db2 = turned_away.
Proof.
  apply (inactive_user_is_turned_away Sample.base SampleApi.api
           (new_Date 1700000100000) (URL.mk "https:" "app.example.com")
           Sample.env SampleApi.user_2 SampleApi.db2).
  intros r [<-|[<-|[]]]; cbn; [discriminate | discriminate].
Defined.

(** X12.  The portal endpoint never writes and never lets an exception
    escape.  For a user who has an active row it asks the provider for a
    portal session of the customer id stored on an active row of that same
    user, returning to [/billing] on the origin of the request, and passes
    on the session's URL (or the base controller's answer to the
    provider's error). *)
Theorem portal_is_for_own_customer base new_Stripe url env routeContext d :
  let o := SubscriptionEndpoints.createPortalSession base new_Stripe url env
             routeContext d in
  db_after o = d /\
  (exists response, result o = Ok response) /\
  (forall u,
     user routeContext = Some u ->
     (exists r, In r (subscriptions_ d) /\
                subscriptions.userId r = user_id u /\
                subscriptions.status r = "active") ->
     exists sub,
       In sub (subscriptions_ d) /\
       subscriptions.userId sub = user_id u /\
       subscriptions.status sub = "active" /\
       result o
       = Ok (match billingPortal_sessions_create
                     (new_Stripe (STRIPE_SECRET_KEY env))
                     {| PortalSessionCreateParams.customer :=
                          subscriptions.stripeCustomerId sub;
                        PortalSessionCreateParams.return_url :=
                          URL.protocol url ++ "//" ++ URL.host url ++ "/billing" |}
             with
             | Ok session =>
                 createSuccessResponse base
                   (JObject [("url", JString (PortalSession.url session))])
             | Throw err => handleError base err "create portal session"
             end)).
Proof.
  cbn zeta. rewrite endpoint_portal_run.
  destruct (user routeContext) as [u|].
  - destruct (select_subscription_by_user_and_status (user_id u) "active" d)
      as [sub|] eqn:Hsel.
    + pose proof (select_active_spec _ _ _ Hsel) as (Hin & Hu & Hs).
      destruct (billingPortal_sessions_create _ _) eqn:Hp;
        cbn [result db_after]; (split; [reflexivity |]); (split; [eauto |]);
        intros u' [= <-] _; exists sub; rewrite Hp; auto.
    + cbn [result db_after]. split; [reflexivity |]. split; [eauto |].
      intros u' [= <-] (r & Hin & Hu & Hs). exfalso.
      apply (proj1 (select_active_none _ _) Hsel r Hin Hu Hs).
  - cbn [result db_after]. split; [reflexivity |]. split; [eauto |].
    intros u' [=].
Qed.

Lemma portal_is_for_own_customer_witness :
  let o := SubscriptionEndpoints.createPortalSession Sample.base SampleApi.api
             (URL.mk "https:" "app.example.com") Sample.env
             {| user := Some SampleApi.user_1 |} SampleApi.db2 in
  exists sub,
    In sub (subscriptions_ SampleApi.db2) /\
    subscriptions.userId sub = "user_1" /\
    subscriptions.status sub = "active" /\
    result o
    = Ok (match billingPortal_sessions_create (SampleApi.api "sk_test")
                  {| PortalSessionCreateParams.customer :=
                       subscriptions.stripeCustomerId sub;
                     PortalSessionCreateParams.return_url :=
                       "https:" ++ "//" ++ "app.example.com" ++ "/billing" |}
          with
          | Ok session =>
              createSuccessResponse Sample.base
                (JObject [("url", JString (PortalSession.url session))])
          | Throw err => handleError Sample.base err "create portal session"
          end).
Proof.
  apply (proj2 (proj2 (portal_is_for_own_customer Sample.base SampleApi.api
                         (URL.mk "https:" "app.example.com") Sample.env
                         {| user := Some SampleApi.user_1 |} SampleApi.db2))
           SampleApi.user_1 eq_refl).
  exists Sample.row. split; [now left |]. split; reflexivity.
Defined.

(** X15.  What the cancel and the reactivate endpoint write is what the
    status endpoint then reports: after a cancellation the provider
    accepted, the status of the same user still says
    [hasActiveSubscription: true] for the same subscription, now with
    [cancelAtPeriodEnd: true]; after a reactivation, with
    [cancelAtPeriodEnd: false]. *)
Theorem status_reports_the_cancel_flag base new_Stripe now env u d sub :
  result (StripeService.getUserSubscription (user_id u) d) = Ok (Some sub) ->
  let stripe := core (new_Stripe (STRIPE_SECRET_KEY env)) in
  let status_after (flag : bool) :=
    Ok (createSuccessResponse base
          (JObject
             [ ("hasActiveSubscription", JBool true);
               ("subscription",
                 JObject
                   [ ("id", JString (subscriptions.id sub));
                     ("status", JString "active");
                     ("currentPeriodEnd",
                       JDate (subscriptions.currentPeriodEnd sub));
                     ("cancelAtPeriodEnd", JBool flag) ]) ])) in
  (subscriptions_update stripe (subscriptions.id sub) true = Ok tt ->
   result (SubscriptionController.getSubscriptionStatus base
             (fun key => core (new_Stripe key)) env {| user := Some u |}
             (db_after (SubscriptionEndpoints.cancelSubscription base new_Stripe
                          now env {| user := Some u |} d)))
   = status_after true) /\
  (subscriptions_update stripe (subscriptions.id sub) false = Ok tt ->
   result (SubscriptionController.getSubscriptionStatus base
             (fun key => core (new_Stripe key)) env {| user := Some u |}
             (db_after (SubscriptionEndpoints.reactivateSubscription base
                          new_Stripe now env {| user := Some u |} d)))
   = status_after false).
Proof.
  intros [= Hsel]. cbn zeta.
  pose proof (select_active_spec _ _ _ Hsel) as (_ & _ & Hact).
  assert (Hfind : forall flag,
    select_subscription_by_user_and_status (user_id u) "active"
      (update_subscriptions_where_id (subscriptions.id sub)
         (StripeService.set_cancelAtPeriodEnd now flag) d)
    = Some (StripeService.set_cancelAtPeriodEnd now flag sub)).
  { intros flag. unfold select_subscription_by_user_and_status in *.
    cbn [subscriptions_ update_subscriptions_where_id].
    rewrite find_map_stable.
    - rewrite Hsel. cbn [option_map]. now rewrite String.eqb_refl.
    - intros r. destruct (String.eqb (subscriptions.id r) (subscriptions.id sub));
        reflexivity. }
  rewrite endpoint_cancel_run, endpoint_reactivate_run. cbn [user].
  rewrite Hsel. split; intros ->; cbn [db_after];
    unfold SubscriptionController.getSubscriptionStatus,
      StripeService.getUserSubscription;
    cbv [try_catch bind query ret result db_after logged user];
    rewrite Hfind; unfold SubscriptionController.status_payload;
    cbn; now rewrite Hact.
Qed.

Lemma status_reports_the_cancel_flag_witness :
  result (SubscriptionController.getSubscriptionStatus Sample.base
            (fun key => core (SampleApi.api key)) Sample.env
            {| user := Some SampleApi.user_1 |}
            (db_after (SubscriptionEndpoints.cancelSubscription Sample.base
                         SampleApi.api (new_Date 1700000100000) Sample.env
                         {| user := Some SampleApi.user_1 |} SampleApi.db2)))
  = Ok (createSuccessResponse Sample.base
          (JObject
             [ ("hasActiveSubscription", JBool true);
               ("subscription",
                 JObject
                   [ ("id", JString "sub_1");
                     ("status", JString "active");
                     ("currentPeriodEnd", JDate (Date_of_unix 1702592000));
                     ("cancelAtPeriodEnd", JBool true) ]) ])).
Proof.
  apply (proj1 (status_reports_the_cancel_flag Sample.base SampleApi.api
                  (new_Date 1700000100000) Sample.env SampleApi.user_1
                  SampleApi.db2 Sample.row eq_refl)).
  reflexivity.
Defined.

(** *** Customers and checkout sessions *)





(** *** The subscription hook of the front end *)

(** X16.  A load that fails never clears what the hook has: when
    [getSubscriptionStatus] fails (the request is rejected, the answer's
    status is outside 200..299, or its body cannot be read), a refetch
    keeps the status loaded before, so [hasActiveSubscription] keeps its
    value, and records the error; when it succeeds the new status
    replaces the old and the error is cleared.  Either way [loading] ends
    [false].  An answer that is not ok is always a failure, with the
    message 'Failed to fetch subscription status'. *)
Theorem failed_refetch_keeps_status baseUrl fetch (s : useSubscription.State) :
  let outcome := SubscriptionClient.getSubscriptionStatus baseUrl fetch in
  let s' := useSubscription.refetch outcome s in
  useSubscription.loading s' = false /\
  (forall err,
     outcome = Throw err ->
     useSubscription.status s' = useSubscription.status s /\
     useSubscription.hasActiveSubscription s'
     = useSubscription.hasActiveSubscription s /\
     useSubscription.error s' = Some err) /\
  (forall subscriptionStatus,
     outcome = Ok subscriptionStatus ->
     useSubscription.status s' = Some subscriptionStatus /\
     useSubscription.hasActiveSubscription s'
     = SubscriptionStatus.hasActiveSubscription subscriptionStatus /\
     useSubscription.error s' = None) /\
  (forall response,
     fetch (baseUrl ++ "/subscription/status")
       {| method := None; credentials := "include" |} = Ok response ->
     (response_status response < 200 \/ 299 < response_status response) ->
     outcome = Throw (JsError "Error" "Failed to fetch subscription status")).
Proof.
  cbn zeta. split; [| split; [| split]].
  - unfold useSubscription.refetch, useSubscription.loadStatus.
    destruct (SubscriptionClient.getSubscriptionStatus baseUrl fetch); reflexivity.
  - intros err ->. repeat split.
  - intros subscriptionStatus ->. repeat split.
  - intros response Hf Hs. unfold SubscriptionClient.getSubscriptionStatus.
    rewrite Hf. unfold response_ok.
    assert (Hok : Z.leb 200 (response_status response)
                  && Z.leb (response_status response) 299 = false).
    { apply andb_false_iff. destruct Hs as [Hs|Hs]; [left | right];
        apply Z.leb_gt; exact Hs. }
    now rewrite Hok.
Qed.

Lemma failed_refetch_keeps_status_witness :
  let fetch := fun (_ : string) (_ : RequestInit) =>
    Ok {| response_status := 401;
          response_json := Ok (SubscriptionStatus.mk false None) |} in
  let s' := useSubscription.refetch
              (SubscriptionClient.getSubscriptionStatus "/api" fetch)
              SampleApi.loaded in
  useSubscription.hasActiveSubscription s' = true /\
  useSubscription.loading s' = false /\
  useSubscription.error s'
  = Some (JsError "Error" "Failed to fetch subscription status").
Proof.
  intros fetch.
  destruct (failed_refetch_keeps_status "/api" fetch SampleApi.loaded)
    as (Hl & Hfail & _ & Hnot_ok).
  destruct (Hfail (JsError "Error" "Failed to fetch subscription status"))
    as (_ & Hh & He).
  - apply (Hnot_ok {| response_status := 401;
                      response_json := Ok (SubscriptionStatus.mk false None) |});
      [reflexivity | right; reflexivity].
  - split; [exact Hh |]. split; [exact Hl | exact He].
Defined.
